(** * ZohoClient (starter.py): token lifecycle and request dispatcher

    A shallow embedding of the [ZohoClient] class of [starter.py].  The
    methods of the class become computations in a state-and-exception monad
    over the client object and the world it talks to (the token endpoint and
    the resource API, the clock, standard input, the local file store and the
    logger).  The environment is an oracle: quantifying over it covers every
    behaviour of the remote service and of the clock.

    Embedded: [__init__], [get_grant_token], [refresh_access_token],
    [_store_refresh_token], [_load_refresh_token], [_ensure_auth],
    [_ensure_valid_token], [get_access_token], [_make_request],
    [list_invoices], [list_items], [list_contacts], [get_item],
    [create_invoice], [create_item], [create_contact], [get_contact],
    [mark_contact_active] and [mark_contact_inactive].  ([download_invoice]
    writes raw bytes and a log record that the records below do not
    carry.)

    Conventions.  A file holds a JSON document; the operator always types a
    line when prompted; any failure of the transport is a [ConnectionError];
    log records keep the variable parts of the messages, not their wording. *)

From stdpp Require Import gmap strings list fin_maps.
From Stdlib Require Import ZArith Lia.

Local Open Scope Z_scope.

(** ** Python values

    The values that flow through the client are the ones [json] produces:
    [None], booleans, integers, strings, lists and dictionaries with string
    keys.  The attributes [access_token] and [refresh_token] hold whatever
    [data.get(...)] returned, so they are values too, [PNone] standing for
    [None].  JSON numbers with a fractional part are outside the model. *)

#[warnings="-register-all"] Inductive PyVal : Type :=
| PNone
| PBool (b : bool)
| PInt (n : Z)
| PStr (s : string)
| PList (l : list PyVal)
| PDict (d : gmap string PyVal).

(** Python truth value testing, as used by [not x] and [if x:]. *)
Definition truthy (v : PyVal) : bool :=
  match v with
  | PNone => false
  | PBool b => b
  | PInt n => negb (n =? 0)
  | PStr s => negb (String.eqb s "")
  | PList l => match l with [] => false | _ :: _ => true end
  | PDict d => negb (bool_decide (d = ∅))
  end.

(** ** Exceptions *)

Inductive Exn : Type :=
| ValueError (msg : string)
| HTTPError (status : Z)
| JSONDecodeError
| AttributeError
| TypeError
| OverflowError
| ConnectionError.

Inductive Outcome (A : Type) : Type :=
| Ret (a : A)
| Raise (e : Exn).
Arguments Ret {A} a.
Arguments Raise {A} e.

(** ** HTTP requests and responses *)

(** The value of a header: a literal, or the f-string
    [f"Zoho-oauthtoken {access_token}"] with the value it interpolates. *)
Inductive HeaderVal : Type :=
| Lit (s : string)
| OAuthToken (tok : PyVal).

Record Request : Type := mkRequest {
  method : string;
  url : string;
  headers : gmap string HeaderVal;
  params : gmap string PyVal;
  json : option PyVal
}.

(** A response: [json_body] is what [response.json()] returns, [None] when
    the body is not a JSON document (the call then raises). *)
Record Response : Type := mkResponse {
  status_code : Z;
  text : string;
  json_body : option PyVal
}.

(** What [requests] gives back: a response, or a transport failure. *)
Inductive Reply : Type :=
| Answer (r : Response)
| NoAnswer.

(** ** The environment *)

(** [net k req] is the reply to the [k]-th request of the run when that
    request is [req]; [clock k] is the [k]-th reading of [datetime.now()],
    in microseconds since [datetime.min]; [stdin k] is the [k]-th line the
    operator types. *)
Record Env : Type := mkEnv {
  net : nat → Request → Reply;
  clock : nat → Z;
  stdin : nat → string
}.

(** ** Log records *)

Inductive Level : Type := INFO | ERROR.

Inductive Message : Type :=
| MsgNoRefreshTokenFound
| MsgGrantOk
| MsgGrantFailed (status : Z)
| MsgResponse (body : string)
| MsgNoRefreshToken
| MsgRefreshOk
| MsgRefreshFailed (status : Z)
| MsgNoValidToken
| MsgMaking (method url : string)
| MsgHttpError (e : Exn)
| MsgResponseContent (body : string)
| MsgRequestOk (url : string).

(** ** The client object and its world *)

Record State : Type := mkState {
  client_id : string;
  client_secret : string;
  redirect_uri : string;
  organization_id : string;
  temp_file : string;
  access_token : PyVal;
  refresh_token : PyVal;
  token_expiry : option Z;
  fs : gmap string PyVal;
  calls : list (Request * Reply);
  ticks : nat;
  prompts : nat;
  log : list (Level * Message)
}.

Definition set_access_token (v : PyVal) (s : State) : State :=
  mkState (client_id s) (client_secret s) (redirect_uri s) (organization_id s)
    (temp_file s) v (refresh_token s) (token_expiry s)
    (fs s) (calls s) (ticks s) (prompts s) (log s).

Definition set_refresh_token (v : PyVal) (s : State) : State :=
  mkState (client_id s) (client_secret s) (redirect_uri s) (organization_id s)
    (temp_file s) (access_token s) v (token_expiry s)
    (fs s) (calls s) (ticks s) (prompts s) (log s).

Definition set_token_expiry (t : option Z) (s : State) : State :=
  mkState (client_id s) (client_secret s) (redirect_uri s) (organization_id s)
    (temp_file s) (access_token s) (refresh_token s) t
    (fs s) (calls s) (ticks s) (prompts s) (log s).

Definition set_fs (f : gmap string PyVal) (s : State) : State :=
  mkState (client_id s) (client_secret s) (redirect_uri s) (organization_id s)
    (temp_file s) (access_token s) (refresh_token s) (token_expiry s)
    f (calls s) (ticks s) (prompts s) (log s).

Definition set_calls (c : list (Request * Reply)) (s : State) : State :=
  mkState (client_id s) (client_secret s) (redirect_uri s) (organization_id s)
    (temp_file s) (access_token s) (refresh_token s) (token_expiry s)
    (fs s) c (ticks s) (prompts s) (log s).

Definition set_ticks (n : nat) (s : State) : State :=
  mkState (client_id s) (client_secret s) (redirect_uri s) (organization_id s)
    (temp_file s) (access_token s) (refresh_token s) (token_expiry s)
    (fs s) (calls s) n (prompts s) (log s).

Definition set_prompts (n : nat) (s : State) : State :=
  mkState (client_id s) (client_secret s) (redirect_uri s) (organization_id s)
    (temp_file s) (access_token s) (refresh_token s) (token_expiry s)
    (fs s) (calls s) (ticks s) n (log s).

Definition set_log (l : list (Level * Message)) (s : State) : State :=
  mkState (client_id s) (client_secret s) (redirect_uri s) (organization_id s)
    (temp_file s) (access_token s) (refresh_token s) (token_expiry s)
    (fs s) (calls s) (ticks s) (prompts s) l.

(** ** The monad *)

Definition M (A : Type) : Type := State → Outcome A * State.

#[global] Instance M_ret : MRet M := λ A a s, (Ret a, s).

#[global] Instance M_bind : MBind M := λ A B f m s,
  match m s with
  | (Ret a, s') => f a s'
  | (Raise e, s') => (Raise e, s')
  end.

Definition raise {A : Type} (e : Exn) : M A := λ s, (Raise e, s).

Definition get_self : M State := λ s, (Ret s, s).

Definition modify (f : State → State) : M unit := λ s, (Ret tt, f s).

(** [try: m  except HTTPError as e: h e]. *)
Definition try_except_HTTPError {A : Type} (m : M A) (h : Exn → M A) : M A :=
  λ s, match m s with
       | (Raise (HTTPError c), s') => h (HTTPError c) s'
       | r => r
       end.

Definition logger (lvl : Level) (msg : Message) : M unit :=
  modify (λ s, set_log (log s ++ [(lvl, msg)]) s).

(** ** Library operations

    The operations below do not touch the client or the world: they return
    an outcome, which [lift] turns into a computation. *)

Definition lift {A : Type} (o : Outcome A) : M A := λ s, (o, s).

(** [d.get(key, default)]; on a value that is not a dictionary the
    attribute lookup raises. *)
Definition py_get (v : PyVal) (key : string) (dflt : PyVal) : Outcome PyVal :=
  match v with
  | PDict d => Ret (default dflt (d !! key))
  | _ => Raise AttributeError
  end.

(** [response.json()]. *)
Definition response_json (r : Response) : Outcome PyVal :=
  match json_body r with
  | Some v => Ret v
  | None => Raise JSONDecodeError
  end.

(** [response.raise_for_status()] of the requests library: an [HTTPError]
    exactly for the client-error and server-error classes. *)
Definition raise_for_status (r : Response) : Outcome unit :=
  if (400 <=? status_code r) && (status_code r <? 600)
  then Raise (HTTPError (status_code r))
  else Ret tt.

(** Times are microseconds since [datetime.min]; [datetime.max] is the last
    microsecond of the year 9999. *)
Definition DATETIME_END : Z := 3652059 * 86400 * 1000000.
Definition TIMEDELTA_MAX_DAYS : Z := 999999999.

(** [timedelta(seconds=v)], in microseconds. *)
Definition timedelta (seconds : PyVal) : Outcome Z :=
  match seconds with
  | PInt n =>
      if (- TIMEDELTA_MAX_DAYS <=? n / 86400) && (n / 86400 <=? TIMEDELTA_MAX_DAYS)
      then Ret (n * 1000000)
      else Raise OverflowError
  | PBool b => Ret (if b then 1000000 else 0)
  | _ => Raise TypeError
  end.

(** [t + d] on a datetime and a timedelta. *)
Definition datetime_add (t d : Z) : Outcome Z :=
  if (0 <=? t + d) && (t + d <? DATETIME_END)
  then Ret (t + d)
  else Raise OverflowError.

(** Keyword arguments the resource methods pass to [_make_request]. *)
Record Kwargs : Type := mkKwargs {
  kw_params : option (gmap string PyVal);
  kw_json : option PyVal
}.

Definition no_kwargs : Kwargs := mkKwargs None None.

Definition BASE_URL : string := "https://www.zohoapis.com/books/v3".
Definition TOKEN_URL : string := "https://accounts.zoho.com/oauth/v2/token".

(** The state [__init__] starts from: the attributes are assigned, the
    world is as it was. *)
Definition init_state (cid csecret ruri org : string) (s : State) : State :=
  mkState cid csecret ruri org "zoho_refresh_token.json"
    PNone PNone None (fs s) (calls s) (ticks s) (prompts s) (log s).

Section Client.

Variable env : Env.

(** [datetime.now()]. *)
Definition datetime_now : M Z :=
  λ s, (Ret (clock env (ticks s)), set_ticks (S (ticks s)) s).

(** [input(prompt)]. *)
Definition input (prompt : string) : M string :=
  λ s, (Ret (stdin env (prompts s)), set_prompts (S (prompts s)) s).

(** [requests.request(...)]: the exchange is recorded in [calls]. *)
Definition requests_request (req : Request) : M Response :=
  λ s, let reply := net env (length (calls s)) req in
       let s' := set_calls (calls s ++ [(req, reply)]) s in
       match reply with
       | Answer r => (Ret r, s')
       | NoAnswer => (Raise ConnectionError, s')
       end.

(** [requests.post(url, params=params)]. *)
Definition requests_post (u : string) (ps : gmap string PyVal) : M Response :=
  requests_request (mkRequest "POST" u ∅ ps None).

(** ** Methods of [ZohoClient] *)

Definition _store_refresh_token : M unit :=
  modify (λ s, set_fs (<[temp_file s := PDict {["refresh_token" := refresh_token s]}]> (fs s)) s).

Definition _load_refresh_token : M unit :=
  self ← get_self;
  match fs self !! temp_file self with
  | Some data =>
      v ← lift (py_get data "refresh_token" PNone);
      modify (set_refresh_token v)
  | None => mret tt
  end.

Definition grant_params (self : State) (code : string) : gmap string PyVal :=
  <["code" := PStr code]> (
  <["client_id" := PStr (client_id self)]> (
  <["client_secret" := PStr (client_secret self)]> (
  <["redirect_uri" := PStr (redirect_uri self)]> (
  <["grant_type" := PStr "authorization_code"]> ∅)))).

Definition get_grant_token (code : string) : M bool :=
  self ← get_self;
  response ← requests_post TOKEN_URL (grant_params self code);
  if status_code response =? 200 then
    data ← lift (response_json response);
    a ← lift (py_get data "access_token" PNone);
    modify (set_access_token a);;
    r ← lift (py_get data "refresh_token" PNone);
    modify (set_refresh_token r);;
    now ← datetime_now;
    secs ← lift (py_get data "expires_in" (PInt 3600));
    delta ← lift (timedelta secs);
    expiry ← lift (datetime_add now delta);
    modify (set_token_expiry (Some expiry));;
    _store_refresh_token;;
    logger INFO MsgGrantOk;;
    mret true
  else
    logger ERROR (MsgGrantFailed (status_code response));;
    logger ERROR (MsgResponse (text response));;
    mret false.

Definition refresh_params (self : State) : gmap string PyVal :=
  <["refresh_token" := refresh_token self]> (
  <["client_id" := PStr (client_id self)]> (
  <["client_secret" := PStr (client_secret self)]> (
  <["redirect_uri" := PStr (redirect_uri self)]> (
  <["grant_type" := PStr "refresh_token"]> ∅)))).

Definition refresh_access_token : M bool :=
  self ← get_self;
  (if negb (truthy (refresh_token self)) then _load_refresh_token else mret tt);;
  self ← get_self;
  if negb (truthy (refresh_token self)) then
    logger ERROR MsgNoRefreshToken;;
    mret false
  else
    response ← requests_post TOKEN_URL (refresh_params self);
    if status_code response =? 200 then
      data ← lift (response_json response);
      a ← lift (py_get data "access_token" PNone);
      modify (set_access_token a);;
      now ← datetime_now;
      secs ← lift (py_get data "expires_in" (PInt 3600));
      delta ← lift (timedelta secs);
      expiry ← lift (datetime_add now delta);
      modify (set_token_expiry (Some expiry));;
      logger INFO MsgRefreshOk;;
      mret true
    else
      logger ERROR (MsgRefreshFailed (status_code response));;
      logger ERROR (MsgResponse (text response));;
      mret false.

(** [not self.access_token or (self.token_expiry and datetime.now() >=
    self.token_expiry)]: the clock is read only when the first two tests
    do not decide. *)
Definition _ensure_valid_token : M bool :=
  self ← get_self;
  if negb (truthy (access_token self)) then refresh_access_token
  else match token_expiry self with
       | None => mret true
       | Some expiry =>
           now ← datetime_now;
           if expiry <=? now then refresh_access_token else mret true
       end.

Definition _ensure_auth : M unit :=
  self ← get_self;
  (if negb (truthy (refresh_token self)) then
     logger INFO MsgNoRefreshTokenFound;;
     code ← input "Enter the authorization code: ";
     ok ← get_grant_token code;
     if negb ok then raise (ValueError "Failed to obtain grant token.")
     else mret tt
   else mret tt);;
  _ensure_valid_token;;
  mret tt.

Definition get_access_token : M PyVal :=
  ok ← _ensure_valid_token;
  if (ok : bool) then
    self ← get_self;
    mret (access_token self)
  else mret PNone.

Definition resource_headers (tok : PyVal) : gmap string HeaderVal :=
  <["Authorization" := OAuthToken tok]> (
  <["Content-Type" := Lit "application/json;charset=UTF-8"]> ∅).

(** The request [_make_request] sends once it holds the token [tok]. *)
Definition resource_request (self : State) (tok : PyVal)
    (meth endpoint : string) (kwargs : Kwargs) : Request :=
  mkRequest meth (BASE_URL +:+ "/" +:+ endpoint) (resource_headers tok)
    (<["organization_id" := PStr (organization_id self)]> (default ∅ (kw_params kwargs)))
    (kw_json kwargs).

Definition _make_request (meth endpoint : string) (kwargs : Kwargs) : M Response :=
  tok ← get_access_token;
  if negb (truthy tok) then
    logger ERROR MsgNoValidToken;;
    raise (ValueError "Failed to obtain a valid access token.")
  else
    self ← get_self;
    let req := resource_request self tok meth endpoint kwargs in
    logger INFO (MsgMaking meth (url req));;
    response ← requests_request req;
    try_except_HTTPError (lift (raise_for_status response))
      (λ e, logger ERROR (MsgHttpError e);;
            logger ERROR (MsgResponseContent (text response));;
            raise e);;
    logger INFO (MsgRequestOk (url req));;
    mret response.

Definition list_invoices : M PyVal :=
  response ← _make_request "GET" "invoices" no_kwargs;
  data ← lift (response_json response);
  lift (py_get data "invoices" (PList [])).

Definition get_item (item_id : string) : M PyVal :=
  response ← _make_request "GET" ("items/" +:+ item_id) no_kwargs;
  data ← lift (response_json response);
  lift (py_get data "item" (PDict ∅)).

Definition list_items : M PyVal :=
  response ← _make_request "GET" "items" no_kwargs;
  data ← lift (response_json response);
  lift (py_get data "items" (PList [])).

Definition line_item (item_id : string) (quantity : Z) (name description rate : PyVal) : PyVal :=
  PDict (<["item_id" := PStr item_id]> (
         <["name" := name]> (
         <["description" := description]> (
         <["rate" := rate]> (
         <["quantity" := PInt quantity]> ∅))))).

(** The [for] loop of [create_invoice] over [zip(items, quantities)],
    with the list [line_items] it appends to. *)
Fixpoint create_invoice_loop (pairs : list (string * Z)) (line_items : list PyVal)
    : M (list PyVal) :=
  match pairs with
  | [] => mret line_items
  | (item_id, quantity) :: rest =>
      item ← get_item item_id;
      if truthy item then
        name ← lift (py_get item "name" PNone);
        description ← lift (py_get item "description" PNone);
        rate ← lift (py_get item "rate" PNone);
        create_invoice_loop rest
          (line_items ++ [line_item item_id quantity name description rate])
      else create_invoice_loop rest line_items
  end.

Definition invoice_data (customer_id : string) (line_items : list PyVal) : PyVal :=
  PDict (<["customer_id" := PStr customer_id]> (
         <["line_items" := PList line_items]> ∅)).

Definition create_invoice (customer_id : string) (items : list string)
    (quantities : list Z) : M PyVal :=
  line_items ← create_invoice_loop (zip items quantities) [];
  response ← _make_request "POST" "invoices"
               (mkKwargs None (Some (invoice_data customer_id line_items)));
  data ← lift (response_json response);
  invoice ← lift (py_get data "invoice" (PDict ∅));
  lift (py_get invoice "invoice_id" PNone).

Definition list_contacts : M PyVal :=
  response ← _make_request "GET" "contacts" no_kwargs;
  data ← lift (response_json response);
  lift (py_get data "contacts" (PList [])).

(** The JSON body [create_item] submits; [rate] is whatever number the
    caller passes, [description] defaults to the empty string at the call. *)
Definition item_data (name : string) (rate : PyVal) (description : string) : PyVal :=
  PDict (<["name" := PStr name]> (
         <["rate" := rate]> (
         <["description" := PStr description]> ∅))).

Definition create_item (name : string) (rate : PyVal) (description : string) : M PyVal :=
  response ← _make_request "POST" "items"
               (mkKwargs None (Some (item_data name rate description)));
  data ← lift (response_json response);
  item ← lift (py_get data "item" (PDict ∅));
  lift (py_get item "item_id" PNone).

Definition create_contact (contact_data : gmap string PyVal) : M PyVal :=
  response ← _make_request "POST" "contacts"
               (mkKwargs None (Some (PDict contact_data)));
  data ← lift (response_json response);
  contact ← lift (py_get data "contact" (PDict ∅));
  lift (py_get contact "contact_id" PNone).

Definition get_contact (contact_id : string) : M PyVal :=
  response ← _make_request "GET" ("contacts/" +:+ contact_id) no_kwargs;
  data ← lift (response_json response);
  lift (py_get data "contact" (PDict ∅)).

Definition mark_contact_active (contact_id : string) : M bool :=
  response ← _make_request "POST" ("contacts/" +:+ contact_id +:+ "/active") no_kwargs;
  mret (status_code response =? 200).

Definition mark_contact_inactive (contact_id : string) : M bool :=
  response ← _make_request "POST" ("contacts/" +:+ contact_id +:+ "/inactive") no_kwargs;
  mret (status_code response =? 200).

Definition __init__ (cid csecret ruri org : string) : M unit :=
  modify (init_state cid csecret ruri org);;
  _load_refresh_token;;
  _ensure_auth.

End Client.

(** * Reasoning about runs *)

(** ** Symbolic execution *)

(** Unfold the plumbing of the monad and project the state. *)
Ltac msimpl :=
  unfold mbind, M_bind, mret, M_ret, requests_post, requests_request,
    try_except_HTTPError;
  cbn [raise get_self modify logger lift datetime_now input fst snd negb
       set_access_token set_refresh_token set_token_expiry set_fs set_calls
       set_ticks set_prompts set_log
       client_id client_secret redirect_uri organization_id temp_file
       access_token refresh_token token_expiry fs calls ticks prompts log].

(** Case analysis on the innermost scrutinee the goal is stuck on. *)
Ltac mcase :=
  match goal with
  | |- context [match ?x with _ => _ end] =>
      lazymatch x with
      | context [match _ with _ => _ end] => fail
      | _ => let E := fresh "E" in destruct x eqn:E; msimpl
      end
  end.

(** Hide the postcondition while the run is executed. *)
Ltac hide_post :=
  match goal with |- _ → ?P => let Q := fresh "Post" in set (Q := P) end.

(** Turn the boolean tests recorded by [mcase] into propositions. *)
Ltac bool_hyps :=
  repeat match goal with
         | E : negb _ = true |- _ => apply negb_true_iff in E
         | E : negb _ = false |- _ => apply negb_false_iff in E
         | E : (_ =? _) = true |- _ => apply Z.eqb_eq in E
         | E : (_ =? _) = false |- _ => apply Z.eqb_neq in E
         | E : (_ <=? _) = true |- _ => apply Z.leb_le in E
         | E : (_ <=? _) = false |- _ => apply Z.leb_gt in E
         end.

(** ** Vocabulary of the statements *)

(** The configuration of a client, which no method changes after
    construction. *)
Definition config (s : State) : string * string * string * string * string :=
  (client_id s, client_secret s, redirect_uri s, organization_id s, temp_file s).

(** An exchange with the token endpoint, and one with the resource API. *)
Definition token_call (x : Request * Reply) : Prop := url x.1 = TOKEN_URL.

Definition is_resource_call (x : Request * Reply) : bool :=
  String.prefix BASE_URL (url x.1).

(** The refresh-token exchange issued from state [s]. *)
Definition refresh_request (s : State) : Request :=
  mkRequest "POST" TOKEN_URL ∅ (refresh_params s) None.

(** The authorization-code exchange issued from state [s]. *)
Definition grant_request (s : State) (code : string) : Request :=
  mkRequest "POST" TOKEN_URL ∅ (grant_params s code) None.

(** [s'] is [s] after token management only: same configuration, same
    files, and the only exchanges added are with the token endpoint. *)
Definition token_step (s s' : State) : Prop :=
  config s' = config s ∧ fs s' = fs s ∧
  ∃ added, calls s' = calls s ++ added ∧ Forall token_call added.

(** The access token must be renewed before use: it is absent, or the clock
    reading is at or past the expiry. *)
Definition stale (env : Env) (s : State) : bool :=
  negb (truthy (access_token s)) ||
  match token_expiry s with
  | Some expiry => expiry <=? clock env (ticks s)
  | None => false
  end.

(** The refresh token [refresh_access_token] ends up with: the one in
    memory, or else the one found in the file. *)
Definition available_refresh_token (s : State) : PyVal :=
  if truthy (refresh_token s) then refresh_token s
  else match fs s !! temp_file s with
       | Some (PDict d) => default PNone (d !! "refresh_token")
       | _ => refresh_token s
       end.

(** The new exchanges of a run from [s] to [s']. *)
Definition new_calls (s s' : State) : list (Request * Reply) :=
  drop (length (calls s)) (calls s').

(** [s'] differs from [s] in the exchanges and the log only. *)
Definition same_client (s s' : State) : Prop :=
  config s' = config s ∧ fs s' = fs s ∧
  access_token s' = access_token s ∧ refresh_token s' = refresh_token s ∧
  token_expiry s' = token_expiry s ∧ ticks s' = ticks s ∧
  prompts s' = prompts s.

(** The entity a lookup obtained: [response.json().get("item", {})]. *)
Definition item_of_reply (rep : Reply) : PyVal :=
  match rep with
  | Answer r =>
      match json_body r with
      | Some (PDict d) => default (PDict ∅) (d !! "item")
      | _ => PNone
      end
  | NoAnswer => PNone
  end.

(** [item.get(key)] on a looked-up entity. *)
Definition field (item : PyVal) (key : string) : PyVal :=
  match item with
  | PDict d => default PNone (d !! key)
  | _ => PNone
  end.

(** The line items composed from the looked-up entities: an entity that is
    empty or absent contributes nothing. *)
Definition line_items_for (rows : list (string * Z * PyVal)) : list PyVal :=
  flat_map (λ '(item_id, quantity, item),
              if truthy item
              then [line_item item_id quantity
                      (field item "name") (field item "description") (field item "rate")]
              else []) rows.

(** An exchange that looks the item [item_id] up and was answered. *)
Definition lookup_call (item_id : string) (x : Request * Reply) : Prop :=
  method x.1 = "GET" ∧ url x.1 = BASE_URL +:+ "/" +:+ "items/" +:+ item_id ∧
  ∃ r, x.2 = Answer r.

(** The access token of [s] is present and does not expire during the run. *)
Definition token_holds (env : Env) (s : State) : Prop :=
  truthy (access_token s) = true ∧
  match token_expiry s with
  | Some expiry => ∀ k, clock env k < expiry
  | None => True
  end.

(** A response the resource methods accept: no error status, a JSON object
    whose ["item"] and ["invoice"] entries, when present, are objects or
    (for an item) empty. *)
Definition well_formed_response (r : Response) : Prop :=
  (400 <=? status_code r) && (status_code r <? 600) = false ∧
  ∃ d, json_body r = Some (PDict d) ∧
       (∀ item, d !! "item" = Some item → truthy item = true → ∃ di, item = PDict di) ∧
       (∀ invoice, d !! "invoice" = Some invoice → ∃ di, invoice = PDict di).

(** Every request is answered, with a response of that kind. *)
Definition api_well_behaved (env : Env) : Prop :=
  ∀ k req, ∃ r, net env k req = Answer r ∧ well_formed_response r.

(** [s'] is [s] after some requests: the configuration, the files and the
    count of prompts are the same, the exchanges and the log of [s] are a
    prefix of those of [s']. *)
Definition grows (s s' : State) : Prop :=
  config s' = config s ∧ fs s' = fs s ∧ prompts s' = prompts s ∧
  calls s `prefix_of` calls s' ∧ log s `prefix_of` log s'.

(** ** Scenarios

    Concrete clients and environments on which the statements below are
    exercised. *)

Definition demo_client : State :=
  mkState "client-1" "secret-1" "https://app.example/callback" "org-77"
    "zoho_refresh_token.json" PNone PNone None ∅ [] 0 0 [].

(** An environment whose replies depend on the request only, with a clock
    that stands still. *)
Definition env_of (reply : Request → Reply) (now : Z) : Env :=
  mkEnv (λ _ req, reply req) (λ _, now) (λ _, "code-1").

(** The token endpoint refuses every exchange. *)
Definition reply_denied (req : Request) : Reply :=
  Answer (mkResponse 401 "invalid_client" None).

(** The token endpoint answers [token_reply]; the resource API answers
    [resource_reply]. *)
Definition reply_by_endpoint (token_reply resource_reply : Reply) (req : Request) : Reply :=
  if String.eqb (url req) TOKEN_URL then token_reply else resource_reply.

(** The body of a token response, and a 200 reply carrying a body. *)
Definition token_body (access refresh : string) : PyVal :=
  PDict (<["access_token" := PStr access]> (
         <["refresh_token" := PStr refresh]> (
         <["expires_in" := PInt 3600]> ∅))).

Definition ok_json (body : PyVal) : Reply :=
  Answer (mkResponse 200 "" (Some body)).

(** The token endpoint grants a new token pair; the resource API is
    unreachable. *)
Definition env_tokens_only : Env :=
  env_of (reply_by_endpoint (ok_json (token_body "access-2" "refresh-2")) NoAnswer) 1000.

(** The token endpoint refuses; the clock reads [1000]. *)
Definition env_denied : Env := env_of reply_denied 1000.

(** The token endpoint grants a new token pair; the resource API answers
    [resource_reply] to every request. *)
Definition env_api (resource_reply : Reply) : Env :=
  env_of (reply_by_endpoint (ok_json (token_body "access-2" "refresh-2")) resource_reply) 1000.

(** A resource API that knows one item, ["widget"], and answers every other
    request with an empty JSON object. *)
Definition widget : PyVal :=
  PDict (<["name" := PStr "Widget"]> (<["rate" := PInt 5]> ∅)).

Definition reply_catalogue (req : Request) : Reply :=
  if String.eqb (url req) TOKEN_URL then ok_json (token_body "access-2" "refresh-2")
  else if String.eqb (url req) (BASE_URL +:+ "/items/widget")
       then ok_json (PDict {["item" := widget]})
       else ok_json (PDict ∅).

Definition env_catalogue : Env := env_of reply_catalogue 1000.

(** Query parameters of a caller that names another organization. *)
Definition kwargs_other_org : Kwargs :=
  mkKwargs (Some (<["organization_id" := PStr "org-of-caller"]> (
                  <["accept" := PStr "pdf"]> ∅))) None.

(** A client that holds a refresh token but no access token. *)
Definition client_with_refresh_token : State :=
  set_refresh_token (PStr "refresh-1") demo_client.

(** A client whose access token expired and that has no refresh token, in
    memory or on disk. *)
Definition client_expired_no_refresh : State :=
  set_token_expiry (Some 0) (set_access_token (PStr "access-0") demo_client).

(** A client whose access token expired and that holds a refresh token. *)
Definition client_expired : State :=
  set_refresh_token (PStr "refresh-1") client_expired_no_refresh.

(** A client whose access token is valid until [10000]. *)
Definition client_fresh : State :=
  set_token_expiry (Some 10000)
    (set_access_token (PStr "access-1") client_with_refresh_token).

(** A client with no refresh token in memory and one in the file. *)
Definition client_token_on_disk : State :=
  set_fs (<["zoho_refresh_token.json" := PDict {["refresh_token" := PStr "disk-1"]}]> ∅)
    demo_client.

(** The token endpoint answers 200 with an error document, as the vendor
    does for a code it rejects: no token, no lifetime. *)
Definition error_body : PyVal := PDict {["error" := PStr "invalid_code"]}.

Definition env_error_body : Env := env_of (λ _, ok_json error_body) 1000.

(** The token endpoint gives the lifetime as a string. *)
Definition string_lifetime_body : PyVal :=
  PDict (<["access_token" := PStr "access-3"]> (
         <["refresh_token" := PStr "refresh-3"]> (
         <["expires_in" := PStr "3600"]> ∅))).

Definition env_string_lifetime : Env :=
  env_of (λ _, ok_json string_lifetime_body) 1000.

(** A world whose token file holds a JSON array. *)
Definition client_malformed_file : State :=
  set_fs (<["zoho_refresh_token.json" := PList []]> ∅) demo_client.

(** The token endpoint answers 201 to the exchange, with a token pair. *)
Definition env_created : Env :=
  env_of (λ _, Answer (mkResponse 201 "" (Some (token_body "access-2" "refresh-2")))) 1000.

(** A token pair whose lifetime is zero seconds. *)
Definition expiring_body : PyVal :=
  PDict (<["access_token" := PStr "access-2"]> (
         <["refresh_token" := PStr "refresh-2"]> (
         <["expires_in" := PInt 0]> ∅))).

(** The first request of the run is answered with that pair, every later
    one with [rep]. *)
Definition env_expiring_then (rep : Reply) : Env :=
  mkEnv (λ k _, match k with O => ok_json expiring_body | S _ => rep end)
        (λ _, 1000) (λ _, "code-1").

(** A refused refresh. *)
Definition reply_refused : Reply := Answer (mkResponse 401 "invalid_client" None).

Lemma token_step_refl s : token_step s s.
Proof.
  repeat split. exists []. split; [symmetry; apply app_nil_r | constructor].
Qed.

Lemma token_step_trans s1 s2 s3 :
  token_step s1 s2 → token_step s2 s3 → token_step s1 s3.
Proof.
  intros (Hc1 & Hf1 & d1 & Hd1 & Ht1) (Hc2 & Hf2 & d2 & Hd2 & Ht2).
  split; [congruence |]. split; [congruence |].
  exists (d1 ++ d2). split.
  - rewrite Hd2, Hd1. symmetry. apply app_assoc.
  - apply Forall_app; auto.
Qed.

Lemma token_step_one s s' req rep :
  calls s' = calls s ++ [(req, rep)] → url req = TOKEN_URL →
  config s' = config s → fs s' = fs s → token_step s s'.
Proof.
  intros Hcalls Hu Hc Hf. split; [done |]. split; [done |].
  exists [(req, rep)]. split; [done |]. by repeat constructor.
Qed.

Lemma token_step_same_calls s s' :
  config s' = config s → fs s' = fs s → calls s' = calls s → token_step s s'.
Proof.
  intros Hc Hf Hcalls. split; [done |]. split; [done |].
  exists []. split; [by rewrite app_nil_r | constructor].
Qed.

Lemma token_call_not_resource x : token_call x → is_resource_call x = false.
Proof. unfold token_call, is_resource_call. intros ->. reflexivity. Qed.

Lemma filter_token_calls added :
  Forall token_call added → List.filter is_resource_call added = [].
Proof.
  induction 1 as [| x l Hx _ IH]; [done |].
  cbn [List.filter]. by rewrite (token_call_not_resource x Hx).
Qed.

(** ** The token manager *)

Section TokenManager.

Variable env : Env.

Ltac token_step_tac :=
  first [ apply token_step_refl
        | apply token_step_same_calls; reflexivity
        | eapply token_step_one; reflexivity ].

Lemma refresh_access_token_step s :
  token_step s (refresh_access_token env s).2.
Proof.
  unfold refresh_access_token, _load_refresh_token. msimpl.
  repeat mcase; token_step_tac.
Qed.

Lemma ensure_valid_token_step s :
  token_step s (_ensure_valid_token env s).2.
Proof.
  unfold _ensure_valid_token. msimpl.
  repeat mcase; try token_step_tac.
  - apply refresh_access_token_step.
  - eapply token_step_trans; [| apply refresh_access_token_step].
    token_step_tac.
Qed.

Lemma get_access_token_step s :
  token_step s (get_access_token env s).2.
Proof.
  unfold get_access_token. msimpl.
  pose proof (ensure_valid_token_step s) as H.
  destruct (_ensure_valid_token env s) as [[[]|e] s1]; exact H.
Qed.

(** What a run of [refresh_access_token] leaves behind, by outcome. *)
Lemma refresh_access_token_outcome s o s' :
  refresh_access_token env s = (o, s') →
  refresh_token s' = available_refresh_token s ∧
  match o with
  | Ret true =>
      ∃ r d, calls s' = calls s ++ [(refresh_request s', Answer r)] ∧
             truthy (refresh_token s') = true ∧
             status_code r = 200 ∧ json_body r = Some (PDict d) ∧
             access_token s' = default PNone (d !! "access_token")
  | Ret false =>
      access_token s' = access_token s ∧ token_expiry s' = token_expiry s ∧
      ((calls s' = calls s ∧ truthy (refresh_token s') = false) ∨
       (∃ r, calls s' = calls s ++ [(refresh_request s', Answer r)] ∧
             truthy (refresh_token s') = true ∧ status_code r ≠ 200))
  | Raise _ =>
      (calls s' = calls s ∧ truthy (refresh_token s') = false) ∨
      (∃ rep, calls s' = calls s ++ [(refresh_request s', rep)] ∧
              truthy (refresh_token s') = true ∧
              match rep with Answer r => status_code r = 200 | NoAnswer => True end)
  end.
Proof.
  hide_post.
  unfold refresh_access_token, _load_refresh_token. msimpl.
  repeat mcase.
  all: intros H; inversion H; subst o s'; clear H; bool_hyps.
  all: subst Post; msimpl; split.
  all: try (unfold available_refresh_token;
            repeat match goal with
                   | H : truthy (refresh_token _) = _ |- _ => rewrite H; clear H
                   | H : fs _ !! _ = _ |- _ => rewrite H; clear H
                   end;
            try done;
            match goal with
            | E : py_get ?p _ _ = _ |- _ => destruct p; inversion E; done
            end).
  all: unfold response_json in *.
  all: repeat match goal with
           | E : match json_body ?r with _ => _ end = _ |- _ => destruct (json_body r) eqn:?; inversion E; clear E; subst
           | E : py_get ?p "access_token" _ = Ret _ |- _ => destruct p; inversion E; clear E; subst
           end.
  all: try (left; by split).
  all: try (right; eexists; by split).
  all: try (split; [done|]; split; [done|]).
  all: try (left; by split).
  all: try (right; eexists; by split).
  all: try (do 2 eexists; repeat split; try done).
Qed.


Lemma snoc_inj {A} (l : list A) x y : l ++ [x] = l ++ [y] → x = y.
Proof. intros H. apply app_inv_head in H. congruence. Qed.

Lemma snoc_not_nil {A} (l : list A) x : l ≠ l ++ [x].
Proof. intros H. apply (f_equal length) in H. rewrite length_app in H. simpl in H. lia. Qed.

(** C10 (as amended).  [refresh_access_token] never writes the file store.
    The refresh token it leaves in memory is the one it found there, or, when
    it found none, the one loaded from the persisted file: a refresh token
    held in memory is never modified, whatever the response carries.  When
    the token endpoint answers with a status other than 200, the call returns
    [False] and the access token and its expiry are unchanged. *)
Theorem refresh_access_token_frame s o s' :
  refresh_access_token env s = (o, s') →
  fs s' = fs s ∧
  refresh_token s' = available_refresh_token s ∧
  (truthy (refresh_token s) = true → refresh_token s' = refresh_token s) ∧
  (∀ req r, calls s' = calls s ++ [(req, Answer r)] → status_code r ≠ 200 →
     o = Ret false ∧ access_token s' = access_token s ∧
     token_expiry s' = token_expiry s).
Proof.
  intros Hrun.
  pose proof (refresh_access_token_step s) as (_ & Hfs & _).
  rewrite Hrun in Hfs. cbn [snd] in Hfs.
  destruct (refresh_access_token_outcome s o s' Hrun) as [Hrt Hout].
  split; [done |]. split; [done |]. split.
  - intros Ht. rewrite Hrt. unfold available_refresh_token. by rewrite Ht.
  - intros req r Hcalls Hstatus.
    destruct o as [[|] | e].
    + destruct Hout as (r0 & d & Hc & _ & H200 & _).
      rewrite Hc in Hcalls. apply snoc_inj in Hcalls. congruence.
    + destruct Hout as (Ha & He & _). done.
    + destruct Hout as [[Hc _] | (rep & Hc & _ & Hrep)].
      * rewrite Hc in Hcalls. by apply snoc_not_nil in Hcalls.
      * rewrite Hc in Hcalls. apply snoc_inj in Hcalls.
        injection Hcalls as _ ->. done.
Qed.

(** [_ensure_valid_token] either answers at once or hands over to
    [refresh_access_token]. *)
Lemma ensure_valid_token_unfold s :
  _ensure_valid_token env s =
  if stale env s then
    refresh_access_token env
      (if truthy (access_token s) then set_ticks (S (ticks s)) s else s)
  else (Ret true,
        match token_expiry s with
        | Some _ => set_ticks (S (ticks s)) s
        | None => s
        end).
Proof.
  unfold _ensure_valid_token, stale. msimpl.
  destruct (truthy (access_token s)); cbn [negb orb]; [| done].
  destruct (token_expiry s) as [expiry |]; msimpl; [| done].
  by destruct (expiry <=? clock env (ticks s)).
Qed.


Lemma get_access_token_unfold s :
  get_access_token env s =
  match _ensure_valid_token env s with
  | (Ret true, s1) => (Ret (access_token s1), s1)
  | (Ret false, s1) => (Ret PNone, s1)
  | (Raise e, s1) => (Raise e, s1)
  end.
Proof.
  unfold get_access_token. msimpl.
  by destruct (_ensure_valid_token env s) as [[[|] | e] s1].
Qed.


Lemma stale_valid s expiry :
  truthy (access_token s) = true → token_expiry s = Some expiry →
  clock env (ticks s) < expiry → stale env s = false.
Proof.
  intros Ha He Hlt. unfold stale. rewrite Ha, He. cbn [negb orb].
  by apply Z.leb_gt.
Qed.



End TokenManager.

(** C10, counterexample: with no refresh token in memory and one in the
    file, [refresh_access_token] changes the refresh token in memory. *)
Lemma refresh_access_token_loads_token :
  refresh_token client_token_on_disk = PNone ∧
  refresh_token (refresh_access_token env_denied client_token_on_disk).2
  = PStr "disk-1".
Proof. split; reflexivity. Qed.

Lemma refresh_access_token_frame_witness :
  fs (refresh_access_token env_tokens_only client_expired).2 = fs client_expired ∧
  refresh_token (refresh_access_token env_tokens_only client_expired).2
  = PStr "refresh-1" ∧
  access_token (refresh_access_token env_tokens_only client_expired).2
  = PStr "access-2".
Proof.
  pose proof (refresh_access_token_frame env_tokens_only client_expired _ _ eq_refl)
    as (Hfs & _ & Hkeep & _).
  split; [exact Hfs |]. split; [exact (Hkeep eq_refl) | reflexivity].
Defined.





(** ** The two token exchanges, once answered *)

Section TokenAnswers.

Variable env : Env.

(** The run of [refresh_access_token] once the exchange is answered. *)
Lemma refresh_access_token_answered s r :
  truthy (refresh_token s) = true →
  net env (length (calls s)) (refresh_request s) = Answer r →
  refresh_access_token env s =
  let s1 := set_calls (calls s ++ [(refresh_request s, Answer r)]) s in
  if status_code r =? 200 then
    match json_body r with
    | Some (PDict d) =>
        let s2 := set_ticks (S (ticks s))
                    (set_access_token (default PNone (d !! "access_token")) s1) in
        match timedelta (default (PInt 3600) (d !! "expires_in")) with
        | Ret delta =>
            match datetime_add (clock env (ticks s)) delta with
            | Ret expiry =>
                (Ret true,
                 set_log (log s ++ [(INFO, MsgRefreshOk)])
                   (set_token_expiry (Some expiry) s2))
            | Raise e => (Raise e, s2)
            end
        | Raise e => (Raise e, s2)
        end
    | Some _ => (Raise AttributeError, s1)
    | None => (Raise JSONDecodeError, s1)
    end
  else
    (Ret false,
     set_log ((log s ++ [(ERROR, MsgRefreshFailed (status_code r))]) ++
              [(ERROR, MsgResponse (text r))]) s1).
Proof.
  intros Htruthy Hnet.
  unfold refresh_access_token, response_json. msimpl. rewrite Htruthy. msimpl.
  rewrite Htruthy. msimpl. fold (refresh_request s). rewrite Hnet. msimpl.
  destruct (status_code r =? 200); msimpl; [| done].
  by destruct (json_body r) as [[| | | | | d] |].
Qed.

(** The run of [get_grant_token] once the exchange is answered. *)
Lemma get_grant_token_answered code s r :
  net env (length (calls s)) (grant_request s code) = Answer r →
  get_grant_token env code s =
  let s1 := set_calls (calls s ++ [(grant_request s code, Answer r)]) s in
  if status_code r =? 200 then
    match json_body r with
    | Some (PDict d) =>
        let s2 := set_ticks (S (ticks s))
                    (set_refresh_token (default PNone (d !! "refresh_token"))
                       (set_access_token (default PNone (d !! "access_token")) s1)) in
        match timedelta (default (PInt 3600) (d !! "expires_in")) with
        | Ret delta =>
            match datetime_add (clock env (ticks s)) delta with
            | Ret expiry =>
                (Ret true,
                 set_log (log s ++ [(INFO, MsgGrantOk)])
                   (set_fs (<[temp_file s :=
                                PDict {["refresh_token" :=
                                          default PNone (d !! "refresh_token")]}]> (fs s))
                      (set_token_expiry (Some expiry) s2)))
            | Raise e => (Raise e, s2)
            end
        | Raise e => (Raise e, s2)
        end
    | Some _ => (Raise AttributeError, s1)
    | None => (Raise JSONDecodeError, s1)
    end
  else
    (Ret false,
     set_log ((log s ++ [(ERROR, MsgGrantFailed (status_code r))]) ++
              [(ERROR, MsgResponse (text r))]) s1).
Proof.
  intros Hnet.
  unfold get_grant_token, _store_refresh_token, response_json. msimpl.
  fold (grant_request s code). rewrite Hnet. msimpl.
  destruct (status_code r =? 200); msimpl; [| done].
  by destruct (json_body r) as [[| | | | | d] |].
Qed.

(** The run of [refresh_access_token] when the exchange fails at the
    transport. *)
Lemma refresh_access_token_unanswered s :
  truthy (refresh_token s) = true →
  net env (length (calls s)) (refresh_request s) = NoAnswer →
  refresh_access_token env s =
  (Raise ConnectionError, set_calls (calls s ++ [(refresh_request s, NoAnswer)]) s).
Proof.
  intros Htruthy Hnet.
  unfold refresh_access_token. msimpl. rewrite Htruthy. msimpl.
  rewrite Htruthy. msimpl. fold (refresh_request s). by rewrite Hnet.
Qed.

End TokenAnswers.

(** ** Authorization *)

Section Authorization.

Variable env : Env.

(** What a run of [get_grant_token] leaves behind, by outcome. *)
Lemma get_grant_token_outcome code s o s' :
  get_grant_token env code s = (o, s') →
  config s' = config s ∧ prompts s' = prompts s ∧
  ∃ rep, net env (length (calls s)) (grant_request s code) = rep ∧
         calls s' = calls s ++ [(grant_request s code, rep)] ∧
    match o with
    | Ret true =>
        ∃ r d, rep = Answer r ∧ status_code r = 200 ∧
               json_body r = Some (PDict d) ∧
               access_token s' = default PNone (d !! "access_token") ∧
               refresh_token s' = default PNone (d !! "refresh_token") ∧
               fs s' = <[temp_file s := PDict {["refresh_token" := refresh_token s']}]> (fs s) ∧
               log s' = log s ++ [(INFO, MsgGrantOk)]
    | Ret false =>
        ∃ r, rep = Answer r ∧ status_code r ≠ 200 ∧ fs s' = fs s ∧
             access_token s' = access_token s ∧
             refresh_token s' = refresh_token s ∧
             token_expiry s' = token_expiry s ∧
             log s' = log s ++ [(ERROR, MsgGrantFailed (status_code r));
                                (ERROR, MsgResponse (text r))]
    | Raise _ => True
    end.
Proof.
  hide_post.
  unfold get_grant_token, _store_refresh_token, response_json. msimpl.
  fold (grant_request s code).
  repeat mcase.
  all: intros H; inversion H; subst o s'; clear H; bool_hyps.
  all: subst Post; msimpl; (split; [done |]); (split; [done |]).
  all: eexists; (split; [reflexivity |]); (split; [done |]); try done.
  all: repeat match goal with
           | E : py_get ?p _ _ = _ |- _ => is_var p; destruct p; try discriminate E
           | E : py_get (PDict _) _ _ = Ret _ |- _ => cbn [py_get] in E; injection E as <-
           end.
  - do 2 eexists. repeat split; try done.
  - eexists. repeat split; try done. by rewrite <- app_assoc.
Qed.

(** C4 (as amended).  Whatever the token endpoint answers to the
    authorization-code exchange: on any status other than 200, the non-2xx
    statuses and 201..299 alike, [get_grant_token] logs the status and the
    body and returns [False], raising nothing and leaving the tokens, the
    expiry and the file untouched.  On status 200 with a JSON object as body
    and a lifetime the expiry can be computed from, it stores the access
    token and the refresh token of the body in memory, writes the refresh
    token to the file and returns [True].  On status 200 with a body that is
    not a JSON object it raises with the tokens and the file untouched; with
    a lifetime that [timedelta] or the addition rejects it raises that error
    and the file is not written. *)
Theorem get_grant_token_spec code s r :
  net env (length (calls s)) (grant_request s code) = Answer r →
  (status_code r ≠ 200 →
     ∃ s', get_grant_token env code s = (Ret false, s') ∧
           log s' = log s ++ [(ERROR, MsgGrantFailed (status_code r));
                              (ERROR, MsgResponse (text r))] ∧
           access_token s' = access_token s ∧
           refresh_token s' = refresh_token s ∧
           token_expiry s' = token_expiry s ∧ fs s' = fs s) ∧
  (status_code r = 200 →
     (∀ d delta expiry,
        json_body r = Some (PDict d) →
        timedelta (default (PInt 3600) (d !! "expires_in")) = Ret delta →
        datetime_add (clock env (ticks s)) delta = Ret expiry →
        ∃ s', get_grant_token env code s = (Ret true, s') ∧
              access_token s' = default PNone (d !! "access_token") ∧
              refresh_token s' = default PNone (d !! "refresh_token") ∧
              token_expiry s' = Some expiry ∧
              fs s' = <[temp_file s :=
                          PDict {["refresh_token" := default PNone (d !! "refresh_token")]}]>
                        (fs s) ∧
              log s' = log s ++ [(INFO, MsgGrantOk)]) ∧
     ((∀ d, json_body r ≠ Some (PDict d)) →
        ∃ e s', get_grant_token env code s = (Raise e, s') ∧
                access_token s' = access_token s ∧
                refresh_token s' = refresh_token s ∧
                token_expiry s' = token_expiry s ∧ fs s' = fs s) ∧
     (∀ d e,
        json_body r = Some (PDict d) →
        (timedelta (default (PInt 3600) (d !! "expires_in")) = Raise e ∨
         ∃ delta, timedelta (default (PInt 3600) (d !! "expires_in")) = Ret delta ∧
                  datetime_add (clock env (ticks s)) delta = Raise e) →
        ∃ s', get_grant_token env code s = (Raise e, s') ∧
              token_expiry s' = token_expiry s ∧ fs s' = fs s)).
Proof.
  intros Hnet.
  split; [| intros H200; split; [| split]].
  - intros Hstatus.
    assert (Hne : (status_code r =? 200) = false) by (by apply Z.eqb_neq).
    unfold get_grant_token. msimpl. fold (grant_request s code).
    rewrite Hnet. msimpl. rewrite Hne. msimpl.
    eexists. split; [reflexivity |]. msimpl. by rewrite <- app_assoc.
  - intros d delta expiry Hbody Hdelta Hexpiry.
    unfold get_grant_token, _store_refresh_token, response_json. msimpl.
    fold (grant_request s code).
    rewrite Hnet. msimpl. rewrite H200, Z.eqb_refl, Hbody. msimpl.
    cbn [py_get]. rewrite Hdelta. msimpl. rewrite Hexpiry. msimpl.
    eexists. split; [reflexivity |]. done.
  - intros Hbody.
    unfold get_grant_token, _store_refresh_token, response_json. msimpl.
    fold (grant_request s code).
    rewrite Hnet. msimpl. rewrite H200, Z.eqb_refl.
    destruct (json_body r) as [[| | | | | d] |]; msimpl;
      try (by do 2 eexists; split; [reflexivity |]).
    by destruct (Hbody d).
  - intros d e Hbody Hfail.
    unfold get_grant_token, _store_refresh_token, response_json. msimpl.
    fold (grant_request s code).
    rewrite Hnet. msimpl. rewrite H200, Z.eqb_refl, Hbody. msimpl.
    cbn [py_get].
    destruct Hfail as [Hdelta | (delta & Hdelta & Hexpiry)];
      rewrite Hdelta; msimpl; [| rewrite Hexpiry; msimpl];
      by eexists; split; [reflexivity |].
Qed.

Lemma load_refresh_token_frame s o s' :
  _load_refresh_token s = (o, s') →
  config s' = config s ∧ fs s' = fs s ∧ calls s' = calls s ∧
  prompts s' = prompts s ∧ log s' = log s ∧ ticks s' = ticks s.
Proof.
  unfold _load_refresh_token. msimpl.
  repeat mcase; intros [= <- <-]; done.
Qed.

(** The run of [refresh_access_token] when neither the memory nor the file
    has a refresh token. *)
Lemma refresh_access_token_no_token s v :
  truthy (refresh_token s) = false →
  fs s !! temp_file s = Some (PDict {["refresh_token" := v]}) →
  truthy v = false →
  refresh_access_token env s =
  (Ret false, set_log (log s ++ [(ERROR, MsgNoRefreshToken)]) (set_refresh_token v s)).
Proof.
  intros Hmem Hfile Hv.
  unfold refresh_access_token, _load_refresh_token. msimpl.
  rewrite Hmem. msimpl. rewrite Hfile. cbn [py_get]. msimpl.
  rewrite lookup_singleton_eq. cbn [default from_option id]. rewrite Hv. by msimpl.
Qed.

(** C8 (as amended).  Construction when no refresh token is available
    after the attempt to load one from the file: the client reads one line
    from standard input and sends it in the authorization-code exchange.  If
    the exchange fails (it returns [False], or raises), construction raises.
    If it succeeds, the refresh token it returned is in the file, which is
    not written again, and construction goes on to validate the access
    token.  When the token obtained is valid, construction completes without
    a further exchange.  When it is absent or already expired, a refresh
    follows: with no refresh token construction completes without a request;
    otherwise one refresh request is sent, and construction completes when
    the answer has a status other than 200 or is a well-formed 200, and
    raises when there is no answer ([ConnectionError]) or the 200 answer is
    malformed. *)
Theorem init_without_refresh_token cid csecret ruri org s0 s1 og s3 :
  _load_refresh_token (init_state cid csecret ruri org s0) = (Ret tt, s1) →
  truthy (refresh_token s1) = false →
  get_grant_token env (stdin env (prompts s1))
    (set_prompts (S (prompts s1))
       (set_log (log s1 ++ [(INFO, MsgNoRefreshTokenFound)]) s1)) = (og, s3) →
  prompts s3 = S (prompts s0) ∧
  (∃ rep, calls s3 = calls s0 ++ [(grant_request s1 (stdin env (prompts s0)), rep)]) ∧
  match og with
  | Ret true =>
      (∃ req r d, last (calls s3) = Some (req, Answer r) ∧
                  json_body r = Some (PDict d) ∧
                  refresh_token s3 = default PNone (d !! "refresh_token")) ∧
      fs s3 !! "zoho_refresh_token.json" =
        Some (PDict {["refresh_token" := refresh_token s3]}) ∧
      fs (__init__ env cid csecret ruri org s0).2 = fs s3 ∧
      (stale env s3 = false →
         ∃ s4, __init__ env cid csecret ruri org s0 = (Ret tt, s4) ∧
               fs s4 = fs s3 ∧ calls s4 = calls s3) ∧
      (stale env s3 = true →
         let now := if truthy (access_token s3) then S (ticks s3) else ticks s3 in
         let req := refresh_request s3 in
         let rep := net env (length (calls s3)) req in
         if truthy (refresh_token s3) then
           ∃ s4, __init__ env cid csecret ruri org s0 =
                   (match rep with
                    | NoAnswer => Raise ConnectionError
                    | Answer r =>
                        if status_code r =? 200 then
                          match json_body r with
                          | Some (PDict d) =>
                              match timedelta (default (PInt 3600) (d !! "expires_in")) with
                              | Ret delta =>
                                  match datetime_add (clock env now) delta with
                                  | Ret _ => Ret tt
                                  | Raise e => Raise e
                                  end
                              | Raise e => Raise e
                              end
                          | Some _ => Raise AttributeError
                          | None => Raise JSONDecodeError
                          end
                        else Ret tt
                    end, s4) ∧
                 calls s4 = calls s3 ++ [(req, rep)]
         else
           ∃ s4, __init__ env cid csecret ruri org s0 = (Ret tt, s4) ∧
                 calls s4 = calls s3)
  | Ret false =>
      __init__ env cid csecret ruri org s0 =
        (Raise (ValueError "Failed to obtain grant token."), s3)
  | Raise e =>
      __init__ env cid csecret ruri org s0 = (Raise e, s3)
  end.
Proof.
  intros Hload Htruthy Hgrant.
  destruct (load_refresh_token_frame _ _ _ Hload)
    as (Hcfg & _ & Hcalls & Hprompts & _).
  cbn [init_state calls prompts] in Hcalls, Hprompts.
  assert (Hfile : temp_file s1 = "zoho_refresh_token.json")
    by (unfold config in Hcfg; cbn in Hcfg; congruence).
  destruct (get_grant_token_outcome _ _ _ _ Hgrant)
    as (Hcfg3 & Hp3 & rep & _ & Hc3 & Hout).
  cbn [prompts calls set_prompts set_log] in Hp3, Hc3.
  assert (Hfile3 : temp_file s3 = "zoho_refresh_token.json")
    by (unfold config in Hcfg3; cbn in Hcfg3; congruence).
  assert (Hinit : __init__ env cid csecret ruri org s0 =
                  match og with
                  | Ret true =>
                      let (o, s4) := _ensure_valid_token env s3 in
                      (match o with Ret _ => Ret tt | Raise e => Raise e end, s4)
                  | Ret false =>
                      (Raise (ValueError "Failed to obtain grant token."), s3)
                  | Raise e => (Raise e, s3)
                  end).
  { unfold __init__, _ensure_auth. msimpl. rewrite Hload. msimpl.
    rewrite Htruthy. msimpl. rewrite Hgrant.
    destruct og as [[|] | e]; msimpl; try done.
    by destruct (_ensure_valid_token env s3) as [[b | e] s4]. }
  split; [congruence |]. split.
  { exists rep. rewrite Hc3, Hcalls, Hprompts. done. }
  destruct og as [[|] | e]; [| done | done].
  destruct Hout as (r & d & -> & _ & Hbody & _ & Hrt & Hfs & _).
  cbn [temp_file fs set_prompts set_log] in Hfs.
  assert (Hfs3 : fs s3 !! "zoho_refresh_token.json" =
                 Some (PDict {["refresh_token" := refresh_token s3]}))
    by (rewrite Hfs, Hfile; apply lookup_insert_eq).
  split; [| split; [| split; [| split]]].
  - exists (grant_request s1 (stdin env (prompts s1))), r, d.
    rewrite Hc3. by rewrite last_snoc.
  - exact Hfs3.
  - rewrite Hinit.
    pose proof (ensure_valid_token_step env s3) as (_ & Hfs4 & _).
    by destruct (_ensure_valid_token env s3) as [o s4].
  - intros Hfresh. rewrite Hinit, ensure_valid_token_unfold, Hfresh.
    eexists. split; [reflexivity |]. by destruct (token_expiry s3).
  - intros Hstale. cbn zeta. rewrite Hinit, ensure_valid_token_unfold, Hstale.
    set (s3' := if truthy (access_token s3) then set_ticks (S (ticks s3)) s3 else s3).
    assert (Hsame : refresh_token s3' = refresh_token s3 ∧ calls s3' = calls s3 ∧
                    fs s3' = fs s3 ∧ temp_file s3' = temp_file s3 ∧
                    refresh_request s3' = refresh_request s3 ∧
                    ticks s3' = if truthy (access_token s3) then S (ticks s3)
                                else ticks s3)
      by (subst s3'; by destruct (truthy (access_token s3))).
    destruct Hsame as (Hrt' & Hcalls' & Hfs' & Htf' & Hreq' & Hticks').
    destruct (truthy (refresh_token s3)) eqn:Hrt3.
    + rewrite <- Hrt' in Hrt3. rewrite <- Hticks', <- Hcalls', <- Hreq'.
      destruct (net env (length (calls s3')) (refresh_request s3')) as [r' |] eqn:Hnet.
      * rewrite (refresh_access_token_answered env s3' r' Hrt3 Hnet). cbn zeta.
        destruct (status_code r' =? 200); [| by eexists].
        destruct (json_body r') as [[| | | | | d'] |]; try (by eexists).
        destruct (timedelta _) as [delta | e]; [| by eexists].
        destruct (datetime_add _ _) as [expiry | e]; by eexists.
      * rewrite (refresh_access_token_unanswered env s3' Hrt3 Hnet). by eexists.
    + rewrite (refresh_access_token_no_token s3' (refresh_token s3)).
      * eexists. split; [reflexivity |]. done.
      * by rewrite Hrt'.
      * by rewrite Hfs', Htf', Hfile3.
      * exact Hrt3.
Qed.

End Authorization.

(** ** The request dispatcher *)

Section Dispatcher.

Variable env : Env.

(** The runs of [_make_request], case by case. *)
Lemma make_request_cases m e kw s o s' :
  _make_request env m e kw s = (o, s') →
  ∃ otok s1, get_access_token env s = (otok, s1) ∧
    match otok with
    | Raise x => o = Raise x ∧ s' = s1
    | Ret tok =>
        same_client s1 s' ∧
        if truthy tok then
          let req := resource_request s1 tok m e kw in
          let rep := net env (length (calls s1)) req in
          calls s' = calls s1 ++ [(req, rep)] ∧
          match rep with
          | NoAnswer =>
              o = Raise ConnectionError ∧
              log s' = log s1 ++ [(INFO, MsgMaking m (url req))]
          | Answer r =>
              if (400 <=? status_code r) && (status_code r <? 600)
              then o = Raise (HTTPError (status_code r)) ∧
                   log s' = log s1 ++
                     [(INFO, MsgMaking m (url req));
                      (ERROR, MsgHttpError (HTTPError (status_code r)));
                      (ERROR, MsgResponseContent (text r))]
              else o = Ret r ∧
                   log s' = log s1 ++
                     [(INFO, MsgMaking m (url req)); (INFO, MsgRequestOk (url req))]
          end
        else o = Raise (ValueError "Failed to obtain a valid access token.") ∧
             calls s' = calls s1 ∧
             log s' = log s1 ++ [(ERROR, MsgNoValidToken)]
    end.
Proof.
  hide_post.
  unfold _make_request, raise_for_status. msimpl.
  destruct (get_access_token env s) as [[tok | x] s1] eqn:Htok; msimpl.
  - destruct (truthy tok) eqn:Htruthy; msimpl.
    + destruct (net env (length (calls s1)) (resource_request s1 tok m e kw))
        as [r |] eqn:Hnet; msimpl.
      * destruct ((400 <=? status_code r) && (status_code r <? 600)) eqn:Hst;
          msimpl; intros [= <- <-]; subst Post; exists (Ret tok), s1;
          (split; [done |]); rewrite Htruthy; cbn zeta; rewrite Hnet, Hst;
          msimpl; rewrite <- ?app_assoc; done.
      * intros [= <- <-]; subst Post; exists (Ret tok), s1.
        split; [done |]. rewrite Htruthy. cbn zeta. rewrite Hnet. done.
    + intros [= <- <-]; subst Post; exists (Ret tok), s1.
      split; [done |]. rewrite Htruthy. done.
  - intros [= <- <-]; subst Post. by exists (Raise x), s1.
Qed.

Lemma new_calls_app s s' added :
  calls s' = calls s ++ added → new_calls s s' = added.
Proof. unfold new_calls. intros ->. apply drop_app_length. Qed.

Lemma get_access_token_new_calls s otok s1 :
  get_access_token env s = (otok, s1) →
  config s1 = config s ∧ fs s1 = fs s ∧
  ∃ added, calls s1 = calls s ++ added ∧ Forall token_call added.
Proof.
  intros H. pose proof (get_access_token_step env s) as Hstep.
  by rewrite H in Hstep.
Qed.

(** C5 (as amended).  Once [_make_request] holds a token and the resource
    API answers, the run has issued exactly one request to the resource API:
    there is no retry.  When the status of the answer is 4xx or 5xx,
    [_make_request] logs the error and the body and raises an [HTTPError] to
    its caller.  A response with any other status, 1xx and 3xx included, is
    returned to the caller without an error, after the success is logged. *)
Theorem make_request_http_error m e kw s tok s1 r :
  get_access_token env s = (Ret tok, s1) → truthy tok = true →
  net env (length (calls s1)) (resource_request s1 tok m e kw) = Answer r →
  ∃ s', calls s' = calls s1 ++ [(resource_request s1 tok m e kw, Answer r)] ∧
        List.filter is_resource_call (new_calls s s') =
          [(resource_request s1 tok m e kw, Answer r)] ∧
        (400 ≤ status_code r < 600 →
           _make_request env m e kw s = (Raise (HTTPError (status_code r)), s') ∧
           log s' = log s1 ++
             [(INFO, MsgMaking m (url (resource_request s1 tok m e kw)));
              (ERROR, MsgHttpError (HTTPError (status_code r)));
              (ERROR, MsgResponseContent (text r))]) ∧
        (¬ (400 ≤ status_code r < 600) →
           _make_request env m e kw s = (Ret r, s') ∧
           log s' = log s1 ++
             [(INFO, MsgMaking m (url (resource_request s1 tok m e kw)));
              (INFO, MsgRequestOk (url (resource_request s1 tok m e kw)))]).
Proof.
  intros Htok Htruthy Hnet.
  destruct (_make_request env m e kw s) as [o s'] eqn:Hrun.
  destruct (make_request_cases m e kw s o s' Hrun) as (otok & s1' & Htok' & Hcase).
  rewrite Htok in Htok'. injection Htok' as <- <-.
  rewrite Htruthy in Hcase. cbn zeta in Hcase. rewrite Hnet in Hcase.
  destruct Hcase as (_ & Hcalls & Hcase).
  exists s'. split; [exact Hcalls |]. split.
  { destruct (get_access_token_new_calls s _ _ Htok) as (_ & _ & added & Hadded & Htc).
    rewrite (new_calls_app s s' (added ++ [(resource_request s1 tok m e kw, Answer r)])).
    - rewrite List.filter_app, (filter_token_calls added Htc). reflexivity.
    - rewrite Hcalls, Hadded. by rewrite <- app_assoc. }
  split; intros Hstatus.
  - assert (Hst : (400 <=? status_code r) && (status_code r <? 600) = true)
      by (apply andb_true_iff; split; [apply Z.leb_le | apply Z.ltb_lt]; lia).
    rewrite Hst in Hcase. destruct Hcase as [-> Hlog]. done.
  - assert (Hst : (400 <=? status_code r) && (status_code r <? 600) = false).
    { apply andb_false_iff.
      destruct (Z.leb_spec 400 (status_code r)); [right | by left].
      apply Z.ltb_ge. lia. }
    rewrite Hst in Hcase. destruct Hcase as [-> Hlog]. done.
Qed.

(** C6.  When [get_access_token] supplies no usable token (an absent or
    empty value), [_make_request] logs the error and raises a [ValueError];
    the exchanges of the run are all with the token endpoint, none with the
    resource API. *)
Theorem make_request_without_token m e kw s tok s1 :
  get_access_token env s = (Ret tok, s1) → truthy tok = false →
  ∃ s', _make_request env m e kw s =
          (Raise (ValueError "Failed to obtain a valid access token."), s') ∧
        log s' = log s1 ++ [(ERROR, MsgNoValidToken)] ∧
        calls s' = calls s1 ∧
        Forall token_call (new_calls s s') ∧
        List.filter is_resource_call (new_calls s s') = [].
Proof.
  intros Htok Htruthy.
  destruct (_make_request env m e kw s) as [o s'] eqn:Hrun.
  destruct (make_request_cases m e kw s o s' Hrun) as (otok & s1' & Htok' & Hcase).
  rewrite Htok in Htok'. injection Htok' as <- <-.
  rewrite Htruthy in Hcase. destruct Hcase as (_ & -> & Hcalls & Hlog).
  exists s'. repeat split; [done | done | |].
  all: destruct (get_access_token_new_calls s _ _ Htok) as (_ & _ & added & Hadded & Htc).
  all: rewrite (new_calls_app s s' added) by congruence.
  - done.
  - by apply filter_token_calls.
Qed.

(** C9.  Every request a run of [_make_request] sends to the resource API
    carries the query parameters of the caller with [organization_id] set to
    the organization of the client: a value the caller gave under that key is
    overwritten. *)
Theorem make_request_organization_id m e kw s o s' :
  _make_request env m e kw s = (o, s') →
  ∀ x, x ∈ new_calls s s' → is_resource_call x = true →
    params x.1 =
      <["organization_id" := PStr (organization_id s)]> (default ∅ (kw_params kw)) ∧
    params x.1 !! "organization_id" = Some (PStr (organization_id s)).
Proof.
  intros Hrun x Hx Hres.
  destruct (make_request_cases m e kw s o s' Hrun) as (otok & s1 & Htok & Hcase).
  destruct (get_access_token_new_calls s _ _ Htok) as (Hcfg & _ & added & Hadded & Htc).
  assert (Horg : organization_id s1 = organization_id s)
    by (unfold config in Hcfg; congruence).
  assert (Hold : x ∈ added → False).
  { intros Hin. rewrite Forall_forall in Htc.
    pose proof (token_call_not_resource x (Htc x Hin)). congruence. }
  destruct otok as [tok | exn].
  - destruct Hcase as (_ & Hcase). destruct (truthy tok).
    + cbn zeta in Hcase. destruct Hcase as (Hcalls & _).
      rewrite (new_calls_app s s' (added ++ _)) in Hx
        by (rewrite Hcalls, Hadded; by rewrite <- app_assoc).
      apply elem_of_app in Hx as [Hx | Hx]; [by destruct Hold |].
      apply list_elem_of_singleton in Hx as ->. cbn [fst params resource_request].
      rewrite Horg. split; [done | apply lookup_insert_eq].
    + destruct Hcase as (_ & Hcalls & _).
      rewrite (new_calls_app s s' added) in Hx by congruence. by destruct Hold.
  - destruct Hcase as (_ & ->).
    rewrite (new_calls_app s s1 added) in Hx by congruence. by destruct Hold.
Qed.

Lemma list_field_run endpoint field s (r : Response) s' d :
  _make_request env "GET" endpoint no_kwargs s = (Ret r, s') →
  json_body r = Some (PDict d) →
  (response ← _make_request env "GET" endpoint no_kwargs;
   data ← lift (response_json response);
   lift (py_get data field (PList []))) s
  = (Ret (default (PList []) (d !! field)), s').
Proof.
  intros Hrun Hbody. msimpl. rewrite Hrun. unfold response_json.
  by rewrite Hbody.
Qed.

(** C7.  When the request succeeds and the body is a JSON object,
    [list_invoices], [list_items] and [list_contacts] return the field
    ["invoices"], ["items"], ["contacts"] of the body, and the empty list when
    the body has no such field. *)
Theorem list_methods_named_field s r s' d :
  json_body r = Some (PDict d) →
  (_make_request env "GET" "invoices" no_kwargs s = (Ret r, s') →
   list_invoices env s = (Ret (default (PList []) (d !! "invoices")), s') ∧
   (d !! "invoices" = None → list_invoices env s = (Ret (PList []), s'))) ∧
  (_make_request env "GET" "items" no_kwargs s = (Ret r, s') →
   list_items env s = (Ret (default (PList []) (d !! "items")), s') ∧
   (d !! "items" = None → list_items env s = (Ret (PList []), s'))) ∧
  (_make_request env "GET" "contacts" no_kwargs s = (Ret r, s') →
   list_contacts env s = (Ret (default (PList []) (d !! "contacts")), s') ∧
   (d !! "contacts" = None → list_contacts env s = (Ret (PList []), s'))).
Proof.
  intros Hbody.
  repeat split; intros;
    unfold list_invoices, list_items, list_contacts;
    erewrite list_field_run by eassumption;
    repeat match goal with H : _ !! _ = None |- _ => rewrite H end; done.
Qed.

End Dispatcher.

(** ** Invoices *)

Section Invoices.

Variable env : Env.

Lemma make_request_ret m e kw s r s' :
  _make_request env m e kw s = (Ret r, s') →
  ∃ tok s1 added,
    calls s' = calls s ++ added ++ [(resource_request s1 tok m e kw, Answer r)] ∧
    Forall token_call added.
Proof.
  intros Hrun.
  destruct (make_request_cases env m e kw s _ s' Hrun) as (otok & s1 & Htok & Hcase).
  destruct (get_access_token_new_calls env s _ _ Htok) as (_ & _ & added & Hadded & Htc).
  destruct otok as [tok | exn]; [| destruct Hcase as [Hx _]; discriminate Hx].
  destruct Hcase as (_ & Hcase). destruct (truthy tok).
  2: { destruct Hcase as [Hx _]. discriminate Hx. }
  revert Hcase. cbn zeta.
  destruct (net env (length (calls s1)) (resource_request s1 tok m e kw))
    as [r0 |]; intros [Hcalls Hrep]; [| destruct Hrep as [Hx _]; discriminate Hx].
  revert Hrep. destruct (_ && _); intros [Hx _]; [discriminate Hx |].
  injection Hx as <-.
  exists tok, s1, added. split; [| done].
  by rewrite Hcalls, Hadded, <- app_assoc.
Qed.

Lemma filter_resource_step added x :
  Forall token_call added → is_resource_call x = true →
  List.filter is_resource_call (added ++ [x]) = [x].
Proof.
  intros Htc Hx. rewrite List.filter_app, (filter_token_calls added Htc).
  cbn [List.filter app]. by rewrite Hx.
Qed.

Lemma get_item_ret item_id s item s' :
  get_item env item_id s = (Ret item, s') →
  ∃ added x, calls s' = calls s ++ added ∧
             List.filter is_resource_call added = [x] ∧
             lookup_call item_id x ∧ item = item_of_reply x.2.
Proof.
  unfold get_item. msimpl.
  destruct (_make_request env "GET" ("items/" +:+ item_id) no_kwargs s)
    as [[r | exn] s1] eqn:Hrun; [| done].
  unfold response_json. destruct (json_body r) as [data |] eqn:Hbody; [| done].
  destruct (py_get data "item" (PDict ∅)) as [v | exn] eqn:Hget; [| done].
  intros [= <- <-].
  destruct (make_request_ret _ _ _ _ _ _ Hrun) as (tok & s0 & added & Hcalls & Htc).
  eexists (added ++ [_]), _. split; [by rewrite Hcalls |].
  split; [by apply filter_resource_step |]. split.
  - repeat split. by exists r.
  - cbn [snd item_of_reply]. rewrite Hbody.
    destruct data; try discriminate Hget. by injection Hget as <-.
Qed.

Lemma create_invoice_loop_ret pairs acc s out s' :
  create_invoice_loop env pairs acc s = (Ret out, s') →
  ∃ added lookups,
    calls s' = calls s ++ added ∧
    List.filter is_resource_call added = lookups ∧
    Forall2 lookup_call pairs.*1 lookups ∧
    out = acc ++ line_items_for (zip pairs (map (λ x, item_of_reply x.2) lookups)).
Proof.
  revert acc s. induction pairs as [| [item_id quantity] rest IH]; intros acc s.
  - cbn [create_invoice_loop]. intros [= <- <-].
    exists [], []. rewrite !app_nil_r. repeat split. constructor.
  - cbn [create_invoice_loop]. msimpl.
    destruct (get_item env item_id s) as [[item | exn] s1] eqn:Hitem; [| done].
    destruct (get_item_ret _ _ _ _ Hitem) as (added1 & x & Hc1 & Hf1 & Hx & Hv).
    assert (Hrest : ∀ acc1,
      create_invoice_loop env rest acc1 s1 = (Ret out, s') →
      acc1 = acc ++ line_items_for [(item_id, quantity, item)] →
      ∃ added lookups,
        calls s' = calls s ++ added ∧
        List.filter is_resource_call added = lookups ∧
        Forall2 lookup_call ((item_id, quantity) :: rest).*1 lookups ∧
        out = acc ++ line_items_for
                (zip ((item_id, quantity) :: rest)
                     (map (λ x, item_of_reply x.2) lookups))).
    { intros acc1 Hloop Hacc1.
      destruct (IH _ _ Hloop) as (added2 & lookups2 & Hc2 & Hf2 & Hall & Hout).
      exists (added1 ++ added2), (x :: lookups2).
      split; [by rewrite Hc2, Hc1, <- app_assoc |].
      split; [by rewrite List.filter_app, Hf1, Hf2 |].
      split; [by constructor |].
      rewrite Hout, Hacc1, <- app_assoc. f_equal.
      cbn [map zip zip_with line_items_for flat_map app]. rewrite <- Hv.
      by rewrite app_nil_r. }
    destruct (truthy item) eqn:Htruthy.
    + destruct item; try (msimpl; done). cbn [py_get]. msimpl.
      intros Hloop. apply (Hrest _ Hloop).
      cbn [line_items_for flat_map]. rewrite Htruthy. by rewrite app_nil_r.
    + intros Hloop. apply (Hrest _ Hloop).
      cbn [line_items_for flat_map]. rewrite Htruthy. by rewrite !app_nil_r.
Qed.

Lemma token_holds_not_stale s : token_holds env s → stale env s = false.
Proof.
  intros [Ha He]. unfold stale. rewrite Ha. cbn [negb orb].
  destruct (token_expiry s) as [expiry |]; [| done].
  apply Z.leb_gt, He.
Qed.

Lemma get_access_token_holds s :
  token_holds env s →
  ∃ s1, get_access_token env s = (Ret (access_token s), s1) ∧
        token_holds env s1 ∧ calls s1 = calls s.
Proof.
  intros Hs. rewrite get_access_token_unfold, ensure_valid_token_unfold.
  rewrite (token_holds_not_stale s Hs).
  destruct Hs as [Ha He].
  destruct (token_expiry s) as [expiry |] eqn:Hexp; eexists;
    (split; [reflexivity |]); (split; [| done]); (split; [done |]).
  - cbn [token_expiry set_ticks]. by rewrite Hexp.
  - by rewrite Hexp.
Qed.

Lemma make_request_completes m e kw s :
  api_well_behaved env → token_holds env s →
  ∃ r s', _make_request env m e kw s = (Ret r, s') ∧
          well_formed_response r ∧ token_holds env s'.
Proof.
  intros Hapi Hs.
  destruct (get_access_token_holds s Hs) as (s1 & Htok & Hs1 & _).
  destruct (_make_request env m e kw s) as [o s'] eqn:Hrun.
  destruct (make_request_cases env m e kw s o s' Hrun) as (otok & s1' & Htok' & Hcase).
  rewrite Htok in Htok'. injection Htok' as <- <-.
  destruct Hcase as (Hsame & Hcase).
  rewrite (proj1 Hs) in Hcase. cbn zeta in Hcase.
  destruct (Hapi (length (calls s1)) (resource_request s1 (access_token s) m e kw))
    as (r & Hnet & Hr).
  rewrite Hnet in Hcase. rewrite (proj1 Hr) in Hcase.
  destruct Hcase as (_ & -> & _).
  exists r, s'. split; [done |]. split; [done |].
  destruct Hsame as (_ & _ & Ha & _ & He & _).
  destruct Hs1 as [Ha1 He1]. split; [by rewrite Ha |]. by rewrite He.
Qed.

Lemma create_invoice_loop_completes pairs acc s :
  api_well_behaved env → token_holds env s →
  ∃ out s', create_invoice_loop env pairs acc s = (Ret out, s') ∧
            token_holds env s'.
Proof.
  intros Hapi. revert acc s.
  induction pairs as [| [item_id quantity] rest IH]; intros acc s Hs.
  - by exists acc, s.
  - cbn [create_invoice_loop]. unfold get_item. msimpl.
    destruct (make_request_completes "GET" ("items/" +:+ item_id) no_kwargs s Hapi Hs)
      as (r & s1 & -> & (_ & d & Hbody & Hitem & _) & Hs1).
    unfold response_json. rewrite Hbody. cbn [py_get]. msimpl.
    destruct (truthy (default (PDict ∅) (d !! "item"))) eqn:Htruthy; [| by apply IH].
    destruct (d !! "item") as [item |] eqn:Hd.
    + cbn [default] in *. destruct (Hitem item eq_refl Htruthy) as [di ->].
      cbn [py_get]. msimpl. by apply IH.
    + cbn [default py_get]. msimpl. by apply IH.
Qed.

Lemma create_invoice_completes customer_id items quantities s :
  api_well_behaved env → token_holds env s →
  ∃ v s', create_invoice env customer_id items quantities s = (Ret v, s').
Proof.
  intros Hapi Hs. unfold create_invoice. msimpl.
  destruct (create_invoice_loop_completes (zip items quantities) [] s Hapi Hs)
    as (line_items & s1 & -> & Hs1).
  destruct (make_request_completes "POST" "invoices"
              (mkKwargs None (Some (invoice_data customer_id line_items))) s1 Hapi Hs1)
    as (r & s2 & -> & (_ & d & Hbody & _ & Hinv) & _).
  unfold response_json. rewrite Hbody. cbn [py_get]. msimpl.
  destruct (d !! "invoice") as [invoice |] eqn:Hd.
  - destruct (Hinv invoice eq_refl) as [di ->]. cbn [default py_get]. eauto.
  - cbn [default py_get]. eauto.
Qed.

(** C1.  For items and quantities of the same length [N]: a run of
    [create_invoice] that returns has sent to the resource API exactly [N]
    item lookups, one per identifier and in their order, followed by exactly
    one invoice creation, whose line items are composed from the looked-up
    entities, an item whose lookup gave no entity being left out.  Such runs
    exist: the call returns whenever the token holds and the API answers
    with well-formed responses. *)
Theorem create_invoice_calls customer_id items quantities s :
  length items = length quantities →
  (api_well_behaved env → token_holds env s →
   ∃ v s', create_invoice env customer_id items quantities s = (Ret v, s')) ∧
  (∀ v s',
     create_invoice env customer_id items quantities s = (Ret v, s') →
     ∃ lookups create,
       List.filter is_resource_call (new_calls s s') = lookups ++ [create] ∧
       length lookups = length items ∧
       Forall2 lookup_call items lookups ∧
       method create.1 = "POST" ∧
       url create.1 = BASE_URL +:+ "/" +:+ "invoices" ∧
       json create.1 =
         Some (invoice_data customer_id
                 (line_items_for
                    (zip (zip items quantities)
                         (map (λ x, item_of_reply x.2) lookups))))).
Proof.
  intros Hlen. split; [apply create_invoice_completes |].
  intros v s'. unfold create_invoice. msimpl.
  destruct (create_invoice_loop env (zip items quantities) [] s)
    as [[line_items | exn] s1] eqn:Hloop; [| done].
  destruct (_make_request env "POST" "invoices" _ s1)
    as [[r | exn] s2] eqn:Hrun; [| done].
  intros Hret.
  assert (s' = s2) as ->.
  { revert Hret. unfold response_json. repeat mcase; intros H; by inversion H. }
  clear Hret.
  destruct (create_invoice_loop_ret _ _ _ _ _ Hloop)
    as (added1 & lookups & Hc1 & Hf1 & Hall & Hout).
  destruct (make_request_ret _ _ _ _ _ _ Hrun) as (tok & s0 & added2 & Hc2 & Htc).
  rewrite fst_zip in Hall by lia.
  eexists lookups, _. split; [| split; [| split; [done |]]].
  - rewrite (new_calls_app s s2 (added1 ++ added2 ++ [_]))
      by (by rewrite Hc2, Hc1, <- app_assoc).
    rewrite List.filter_app, Hf1. f_equal. by apply filter_resource_step.
  - symmetry. by eapply Forall2_length.
  - cbn [fst method url json resource_request kw_json]. by rewrite Hout.
Qed.

End Invoices.

(** * The statements on the scenarios *)

(** ** Authorization-code exchange *)

(** C4, counterexample: the token endpoint answers 201, a success status,
    with a token pair; [get_grant_token] returns [False] and stores
    nothing. *)
Lemma get_grant_token_rejects_201 :
  ∃ s', get_grant_token env_created "code-1" demo_client = (Ret false, s') ∧
        access_token s' = PNone ∧ refresh_token s' = PNone ∧ fs s' = ∅ ∧
        log s' = [(ERROR, MsgGrantFailed 201); (ERROR, MsgResponse "")].
Proof. eexists. split; [vm_compute; reflexivity |]. done. Qed.

Lemma get_grant_token_spec_witness :
  (∃ s', get_grant_token env_tokens_only "code-1" demo_client = (Ret true, s') ∧
         access_token s' = PStr "access-2" ∧
         refresh_token s' = PStr "refresh-2" ∧
         fs s' !! "zoho_refresh_token.json" =
           Some (PDict {["refresh_token" := PStr "refresh-2"]})) ∧
  (∃ s', get_grant_token env_denied "code-1" demo_client = (Ret false, s') ∧
         log s' = [(ERROR, MsgGrantFailed 401); (ERROR, MsgResponse "invalid_client")] ∧
         fs s' = fs demo_client) ∧
  (∃ s', get_grant_token (env_of (λ _, Answer (mkResponse 200 "<html>" None)) 1000)
           "code-1" demo_client = (Raise JSONDecodeError, s') ∧
         fs s' = fs demo_client) ∧
  (∃ s', get_grant_token env_string_lifetime "code-1" demo_client = (Raise TypeError, s') ∧
         fs s' = fs demo_client).
Proof.
  split; [| split; [| split]].
  - destruct (proj1 (proj2 (get_grant_token_spec env_tokens_only "code-1" demo_client
                              _ eq_refl) eq_refl)
                _ _ _ eq_refl eq_refl eq_refl)
      as (s' & Hrun & Ha & Hr & _ & Hfs & _).
    exists s'. split; [exact Hrun |]. split; [exact Ha |]. split; [exact Hr |].
    rewrite Hfs. reflexivity.
  - destruct (proj1 (get_grant_token_spec env_denied "code-1" demo_client _ eq_refl)
                ltac:(discriminate))
      as (s' & Hrun & Hlog & _ & _ & _ & Hfs).
    exists s'. split; [exact Hrun |]. split; [exact Hlog | exact Hfs].
  - destruct (proj1 (proj2 (proj2 (get_grant_token_spec
                              (env_of (λ _, Answer (mkResponse 200 "<html>" None)) 1000)
                              "code-1" demo_client _ eq_refl) eq_refl))
                ltac:(discriminate))
      as (e & s' & Hrun & _ & _ & _ & Hfs).
    exists s'. split; [| exact Hfs].
    assert (He : (get_grant_token (env_of (λ _, Answer (mkResponse 200 "<html>" None)) 1000)
                    "code-1" demo_client).1 = Raise JSONDecodeError) by reflexivity.
    rewrite Hrun in He. cbn [fst] in He. injection He as ->. exact Hrun.
  - destruct (proj2 (proj2 (proj2 (get_grant_token_spec env_string_lifetime
                              "code-1" demo_client _ eq_refl) eq_refl))
                _ TypeError eq_refl (or_introl eq_refl))
      as (s' & Hrun & _ & Hfs).
    exists s'. split; [exact Hrun | exact Hfs].
Defined.

(** ** Construction *)

(** C8, counterexample: the exchange succeeds with a token pair whose
    lifetime is zero, and the refresh that follows is not answered;
    construction raises a [ConnectionError] although the refresh token is in
    the file. *)
Lemma init_raises_after_grant :
  (get_grant_token (env_expiring_then NoAnswer) "code-1"
     (set_prompts 1
        (set_log [(INFO, MsgNoRefreshTokenFound)]
           (init_state "client-1" "secret-1" "https://app.example/callback"
              "org-77" demo_client)))).1 = Ret true ∧
  ∃ s4, __init__ (env_expiring_then NoAnswer) "client-1" "secret-1"
          "https://app.example/callback" "org-77" demo_client
        = (Raise ConnectionError, s4) ∧
        refresh_token s4 = PStr "refresh-2" ∧
        fs s4 !! "zoho_refresh_token.json" =
          Some (PDict {["refresh_token" := PStr "refresh-2"]}) ∧
        log s4 = [(INFO, MsgNoRefreshTokenFound); (INFO, MsgGrantOk)].
Proof.
  split; [vm_compute; reflexivity |].
  eexists. split; [vm_compute; reflexivity |]. done.
Qed.

Lemma init_without_refresh_token_witness :
  (∃ s4, __init__ env_tokens_only "client-1" "secret-1"
           "https://app.example/callback" "org-77" demo_client = (Ret tt, s4) ∧
         fs s4 !! "zoho_refresh_token.json" =
           Some (PDict {["refresh_token" := PStr "refresh-2"]})) ∧
  (∃ s3, __init__ env_denied "client-1" "secret-1"
           "https://app.example/callback" "org-77" demo_client =
         (Raise (ValueError "Failed to obtain grant token."), s3)) ∧
  (∃ s4, __init__ (env_expiring_then reply_refused) "client-1" "secret-1"
           "https://app.example/callback" "org-77" demo_client = (Ret tt, s4) ∧
         length (calls s4) = 2%nat).
Proof.
  pose (s1 := init_state "client-1" "secret-1" "https://app.example/callback"
                "org-77" demo_client).
  split; [| split].
  - assert (∃ s3,
      get_grant_token env_tokens_only (stdin env_tokens_only (prompts s1))
        (set_prompts (S (prompts s1))
           (set_log (log s1 ++ [(INFO, MsgNoRefreshTokenFound)]) s1)) = (Ret true, s3) ∧
      stale env_tokens_only s3 = false ∧ refresh_token s3 = PStr "refresh-2")
      as (s3 & Hgrant & Hvalid & Htoken)
      by (eexists; split; [vm_compute; reflexivity | split; vm_compute; reflexivity]).
    destruct (init_without_refresh_token env_tokens_only "client-1" "secret-1"
                "https://app.example/callback" "org-77" demo_client
                s1 (Ret true) s3 eq_refl eq_refl Hgrant)
      as (_ & _ & _ & Hfile & _ & Hcompletes & _).
    destruct (Hcompletes Hvalid) as (s4 & Hinit & Hfs & _).
    exists s4. split; [exact Hinit |]. rewrite Hfs, Hfile, Htoken. reflexivity.
  - assert (∃ s3,
      get_grant_token env_denied (stdin env_denied (prompts s1))
        (set_prompts (S (prompts s1))
           (set_log (log s1 ++ [(INFO, MsgNoRefreshTokenFound)]) s1)) = (Ret false, s3))
      as (s3 & Hgrant) by (eexists; vm_compute; reflexivity).
    destruct (init_without_refresh_token env_denied "client-1" "secret-1"
                "https://app.example/callback" "org-77" demo_client
                s1 (Ret false) s3 eq_refl eq_refl Hgrant)
      as (_ & _ & Hinit).
    exists s3. exact Hinit.
  - assert (∃ s3,
      get_grant_token (env_expiring_then reply_refused)
        (stdin (env_expiring_then reply_refused) (prompts s1))
        (set_prompts (S (prompts s1))
           (set_log (log s1 ++ [(INFO, MsgNoRefreshTokenFound)]) s1)) = (Ret true, s3) ∧
      stale (env_expiring_then reply_refused) s3 = true ∧
      truthy (refresh_token s3) = true ∧ length (calls s3) = 1%nat ∧
      net (env_expiring_then reply_refused) (length (calls s3)) (refresh_request s3)
        = reply_refused)
      as (s3 & Hgrant & Hstale & Htoken & Hlen & Hnet)
      by (eexists; split; [vm_compute; reflexivity | repeat split; vm_compute; reflexivity]).
    destruct (init_without_refresh_token (env_expiring_then reply_refused)
                "client-1" "secret-1"
                "https://app.example/callback" "org-77" demo_client
                s1 (Ret true) s3 eq_refl eq_refl Hgrant)
      as (_ & _ & _ & _ & _ & _ & Hrefresh).
    specialize (Hrefresh Hstale). cbn zeta in Hrefresh.
    rewrite Htoken, Hnet in Hrefresh.
    destruct Hrefresh as (s4 & Hinit & Hcalls).
    exists s4. split; [exact Hinit |]. rewrite Hcalls, length_app, Hlen. reflexivity.
Defined.

(** ** The dispatcher *)

(** C5, counterexample: the resource API answers 304, a non-2xx status;
    [_make_request] raises nothing and returns the response. *)
Lemma make_request_returns_304 :
  (_make_request (env_api (Answer (mkResponse 304 "" None)))
     "GET" "invoices" no_kwargs client_fresh).1
  = Ret (mkResponse 304 "" None).
Proof. reflexivity. Qed.

Lemma make_request_http_error_witness :
  (∃ s', _make_request (env_api (Answer (mkResponse 404 "no such invoice" None)))
           "GET" "invoices/17" no_kwargs client_fresh
         = (Raise (HTTPError 404), s') ∧
         length (List.filter is_resource_call (new_calls client_fresh s')) = 1%nat) ∧
  (∃ s', _make_request (env_api (Answer (mkResponse 302 "moved" None)))
           "GET" "invoices/17" no_kwargs client_fresh
         = (Ret (mkResponse 302 "moved" None), s') ∧
         length (List.filter is_resource_call (new_calls client_fresh s')) = 1%nat).
Proof.
  split.
  - destruct (make_request_http_error
                (env_api (Answer (mkResponse 404 "no such invoice" None)))
                "GET" "invoices/17" no_kwargs client_fresh _ _ _
                eq_refl eq_refl eq_refl)
      as (s' & _ & Hone & Herror & _).
    destruct (Herror ltac:(cbn; lia)) as [Hrun _].
    exists s'. split; [exact Hrun |]. rewrite Hone. reflexivity.
  - destruct (make_request_http_error
                (env_api (Answer (mkResponse 302 "moved" None)))
                "GET" "invoices/17" no_kwargs client_fresh _ _ _
                eq_refl eq_refl eq_refl)
      as (s' & _ & Hone & _ & Hother).
    destruct (Hother ltac:(cbn; lia)) as [Hrun _].
    exists s'. split; [exact Hrun |]. rewrite Hone. reflexivity.
Defined.

Lemma make_request_without_token_witness :
  ∃ s', _make_request env_denied "GET" "invoices" no_kwargs client_with_refresh_token
        = (Raise (ValueError "Failed to obtain a valid access token."), s') ∧
        List.filter is_resource_call (new_calls client_with_refresh_token s') = [].
Proof.
  destruct (make_request_without_token env_denied "GET" "invoices" no_kwargs
              client_with_refresh_token _ _ eq_refl eq_refl)
    as (s' & Hrun & _ & _ & _ & Hnone).
  exists s'. split; [exact Hrun | exact Hnone].
Defined.

Lemma make_request_organization_id_witness :
  ∃ x, last (calls (_make_request (env_api (ok_json (PDict ∅)))
                      "GET" "invoices/17" kwargs_other_org client_fresh).2) = Some x ∧
       params x.1 !! "organization_id" = Some (PStr "org-77") ∧
       params x.1 !! "accept" = Some (PStr "pdf").
Proof.
  eexists. split; [reflexivity |].
  split; [| reflexivity].
  match goal with
  | |- params (fst ?x) !! _ = _ =>
      refine (proj2 (make_request_organization_id (env_api (ok_json (PDict ∅)))
                       "GET" "invoices/17" kwargs_other_org client_fresh _ _ eq_refl
                       x _ eq_refl))
  end.
  vm_compute. left.
Defined.

(** ** Listing *)

Lemma list_methods_named_field_witness :
  (list_invoices (env_api (ok_json (PDict ∅))) client_fresh).1 = Ret (PList []) ∧
  (list_items (env_api (ok_json (PDict {["items" := PList [widget]]}))) client_fresh).1
  = Ret (PList [widget]).
Proof.
  split.
  - destruct (list_methods_named_field (env_api (ok_json (PDict ∅))) client_fresh
                (mkResponse 200 "" (Some (PDict ∅)))
                (_make_request (env_api (ok_json (PDict ∅)))
                   "GET" "invoices" no_kwargs client_fresh).2
                ∅ eq_refl) as (Hinvoices & _ & _).
    destruct (Hinvoices eq_refl) as [_ Hempty].
    rewrite (Hempty eq_refl). reflexivity.
  - destruct (list_methods_named_field
                (env_api (ok_json (PDict {["items" := PList [widget]]}))) client_fresh
                (mkResponse 200 "" (Some (PDict {["items" := PList [widget]]})))
                (_make_request (env_api (ok_json (PDict {["items" := PList [widget]]})))
                   "GET" "items" no_kwargs client_fresh).2
                _ eq_refl) as (_ & Hitems & _).
    destruct (Hitems eq_refl) as [Hfield _].
    rewrite Hfield. reflexivity.
Defined.

(** ** Invoices *)

Lemma create_invoice_calls_witness :
  ∃ v s' lookups create,
    create_invoice env_catalogue "customer-9" ["widget"; "ghost"] [2; 1] client_fresh
    = (Ret v, s') ∧
    List.filter is_resource_call (new_calls client_fresh s') = lookups ++ [create] ∧
    length lookups = 2%nat ∧
    json create.1 =
      Some (invoice_data "customer-9"
              (line_items_for
                 (zip (zip ["widget"; "ghost"] [2; 1])
                      (map (λ x, item_of_reply x.2) lookups)))).
Proof.
  assert (∃ v s',
    create_invoice env_catalogue "customer-9" ["widget"; "ghost"] [2; 1] client_fresh
    = (Ret v, s')) as (v & s' & Hrun)
    by (do 2 eexists; vm_compute; reflexivity).
  destruct (proj2 (create_invoice_calls env_catalogue "customer-9"
                     ["widget"; "ghost"] [2; 1] client_fresh eq_refl)
              v s' Hrun)
    as (lookups & create & Hcalls & Hlen & _ & _ & _ & Hjson).
  exists v, s', lookups, create.
  split; [exact Hrun |]. split; [exact Hcalls |]. split; [exact Hlen | exact Hjson].
Defined.

(** The invoice submitted in that run: the item whose lookup gave no entity
    is left out. *)
Example create_invoice_omits_missing_item :
  (λ x : Request * Reply, (method x.1, url x.1, json x.1)) <$>
    List.filter is_resource_call
      (calls (create_invoice env_catalogue "customer-9" ["widget"; "ghost"] [2; 1]
                client_fresh).2)
  = [("GET", "https://www.zohoapis.com/books/v3/items/widget", None);
     ("GET", "https://www.zohoapis.com/books/v3/items/ghost", None);
     ("POST", "https://www.zohoapis.com/books/v3/invoices",
      Some (invoice_data "customer-9"
              [line_item "widget" 2 (PStr "Widget") PNone (PInt 5)]))].
Proof. vm_compute. reflexivity. Qed.

(** * Further properties of the client *)

(** ** Token file, lifetimes and the cached token *)

Section TokenLifecycle.

Variable env : Env.

(** X1.  Storing the refresh token and loading it back gives the same
    token: after [_store_refresh_token], whatever the refresh token in
    memory has become, [_load_refresh_token] returns with the token that was
    stored, and leaves the files as the store left them. *)
Theorem store_load_round_trip s v :
  ∃ s2, _load_refresh_token (set_refresh_token v (_store_refresh_token s).2)
        = (Ret tt, s2) ∧
        refresh_token s2 = refresh_token s ∧
        fs s2 = fs (_store_refresh_token s).2.
Proof.
  unfold _load_refresh_token, _store_refresh_token. msimpl.
  rewrite lookup_insert_eq. cbn [py_get]. msimpl.
  rewrite lookup_singleton_eq. cbn [default]. eauto.
Qed.

(** X2.  When the token endpoint answers 200 with a document that has no
    ["refresh_token"], [get_grant_token] still returns [True]: the refresh
    token in memory is [None], the file holds [{"refresh_token": null}], and
    from that state [refresh_access_token] returns [False] without sending a
    request, whatever the service would answer. *)
Theorem get_grant_token_without_refresh_token code s r d delta expiry :
  net env (length (calls s)) (grant_request s code) = Answer r →
  status_code r = 200 → json_body r = Some (PDict d) →
  d !! "refresh_token" = None →
  timedelta (default (PInt 3600) (d !! "expires_in")) = Ret delta →
  datetime_add (clock env (ticks s)) delta = Ret expiry →
  ∃ s', get_grant_token env code s = (Ret true, s') ∧
        refresh_token s' = PNone ∧
        fs s' !! temp_file s' = Some (PDict {["refresh_token" := PNone]}) ∧
        ∀ env', ∃ s'', refresh_access_token env' s' = (Ret false, s'') ∧
                       calls s'' = calls s' ∧
                       log s'' = log s' ++ [(ERROR, MsgNoRefreshToken)].
Proof.
  intros Hnet H200 Hbody Hnone Hdelta Hexpiry.
  rewrite (get_grant_token_answered env code s r Hnet). cbn zeta.
  rewrite H200, Z.eqb_refl, Hbody, Hdelta, Hexpiry, Hnone. cbn [default].
  eexists. split; [reflexivity |]. msimpl. split; [done |].
  split; [apply lookup_insert_eq |].
  intros env'. unfold refresh_access_token, _load_refresh_token. msimpl.
  cbn [truthy]. msimpl. rewrite lookup_insert_eq. cbn [py_get]. msimpl.
  rewrite lookup_singleton_eq. cbn [default truthy]. msimpl. eauto.
Qed.

(** X3.  The expiry recorded by a successful exchange is the clock at the
    single reading the method makes plus ["expires_in"] seconds (3600 when
    the document names none), for [get_grant_token] and for
    [refresh_access_token] alike, as long as the lifetime and the sum are in
    the range of [timedelta] and [datetime]. *)
Theorem token_lifetime code s r d n :
  status_code r = 200 → json_body r = Some (PDict d) →
  default (PInt 3600) (d !! "expires_in") = PInt n →
  - TIMEDELTA_MAX_DAYS ≤ n / 86400 ≤ TIMEDELTA_MAX_DAYS →
  0 ≤ clock env (ticks s) + n * 1000000 < DATETIME_END →
  (net env (length (calls s)) (grant_request s code) = Answer r →
   ∃ s', get_grant_token env code s = (Ret true, s') ∧
         token_expiry s' = Some (clock env (ticks s) + n * 1000000) ∧
         ticks s' = S (ticks s)) ∧
  (truthy (refresh_token s) = true →
   net env (length (calls s)) (refresh_request s) = Answer r →
   ∃ s', refresh_access_token env s = (Ret true, s') ∧
         token_expiry s' = Some (clock env (ticks s) + n * 1000000) ∧
         ticks s' = S (ticks s)).
Proof.
  intros H200 Hbody Hn Hdays Hrange.
  assert (Hdelta : timedelta (PInt n) = Ret (n * 1000000)).
  { unfold timedelta.
    destruct (Z.leb_spec (- TIMEDELTA_MAX_DAYS) (n / 86400)); [| lia].
    destruct (Z.leb_spec (n / 86400) TIMEDELTA_MAX_DAYS); [done | lia]. }
  assert (Hadd : datetime_add (clock env (ticks s)) (n * 1000000)
                 = Ret (clock env (ticks s) + n * 1000000)).
  { unfold datetime_add.
    destruct (Z.leb_spec 0 (clock env (ticks s) + n * 1000000)); [| lia].
    destruct (Z.ltb_spec (clock env (ticks s) + n * 1000000) DATETIME_END);
      [done | lia]. }
  split.
  - intros Hnet. rewrite (get_grant_token_answered env code s r Hnet). cbn zeta.
    rewrite H200, Z.eqb_refl, Hbody, Hn, Hdelta, Hadd. eauto.
  - intros Htruthy Hnet.
    rewrite (refresh_access_token_answered env s r Htruthy Hnet). cbn zeta.
    rewrite H200, Z.eqb_refl, Hbody, Hn, Hdelta, Hadd. eauto.
Qed.

(** X4.  When [timedelta] rejects the lifetime of a 200 answer (a string,
    a number out of range), [get_grant_token] raises that error after it has
    assigned the access and refresh tokens in memory, and before it records
    an expiry or writes the file. *)
Theorem get_grant_token_bad_lifetime code s r d e :
  net env (length (calls s)) (grant_request s code) = Answer r →
  status_code r = 200 → json_body r = Some (PDict d) →
  timedelta (default (PInt 3600) (d !! "expires_in")) = Raise e →
  ∃ s', get_grant_token env code s = (Raise e, s') ∧
        access_token s' = default PNone (d !! "access_token") ∧
        refresh_token s' = default PNone (d !! "refresh_token") ∧
        token_expiry s' = token_expiry s ∧
        fs s' = fs s.
Proof.
  intros Hnet H200 Hbody Hdelta.
  rewrite (get_grant_token_answered env code s r Hnet). cbn zeta.
  rewrite H200, Z.eqb_refl, Hbody, Hdelta. eauto 6.
Qed.

Lemma refresh_access_token_records_expiry s s1 :
  refresh_access_token env s = (Ret true, s1) →
  ∃ expiry, token_expiry s1 = Some expiry.
Proof.
  hide_post.
  unfold refresh_access_token, _load_refresh_token. msimpl.
  repeat mcase; intros H; inversion H; subst; subst Post; msimpl; eauto.
Qed.

(** X5.  After a refresh that returned [True] an expiry is recorded, and
    while the access token is non-empty and the clock is before that expiry
    [get_access_token] hands out the token in memory without a request. *)
Theorem refresh_then_cached s s1 :
  refresh_access_token env s = (Ret true, s1) →
  ∃ expiry, token_expiry s1 = Some expiry ∧
    (truthy (access_token s1) = true → clock env (ticks s1) < expiry →
     ∃ s2, get_access_token env s1 = (Ret (access_token s1), s2) ∧
           calls s2 = calls s1).
Proof.
  intros Hrun.
  destruct (refresh_access_token_records_expiry s s1 Hrun) as [expiry Hexp].
  exists expiry. split; [done |]. intros Ha Hlt.
  rewrite get_access_token_unfold, ensure_valid_token_unfold.
  rewrite (stale_valid env s1 expiry Ha Hexp Hlt), Hexp. eauto.
Qed.

(** X6.  A refresh that is answered 200 with a document that has no
    ["access_token"] counts as a success for [refresh_access_token], and
    [_make_request] then raises the [ValueError]: the run has sent the
    refresh request and nothing to the resource API, and has logged the
    success of the refresh followed by the missing token. *)
Theorem make_request_after_empty_refresh m e kw s r d delta expiry :
  truthy (access_token s) = false → truthy (refresh_token s) = true →
  net env (length (calls s)) (refresh_request s) = Answer r →
  status_code r = 200 → json_body r = Some (PDict d) →
  d !! "access_token" = None →
  timedelta (default (PInt 3600) (d !! "expires_in")) = Ret delta →
  datetime_add (clock env (ticks s)) delta = Ret expiry →
  ∃ s', _make_request env m e kw s =
          (Raise (ValueError "Failed to obtain a valid access token."), s') ∧
        calls s' = calls s ++ [(refresh_request s, Answer r)] ∧
        log s' = log s ++ [(INFO, MsgRefreshOk); (ERROR, MsgNoValidToken)].
Proof.
  intros Ha Hrt Hnet H200 Hbody Hnone Hdelta Hexpiry.
  unfold _make_request. msimpl.
  rewrite get_access_token_unfold, ensure_valid_token_unfold.
  unfold stale. rewrite Ha. cbn [negb orb].
  rewrite (refresh_access_token_answered env s r Hrt Hnet). cbn zeta.
  rewrite H200, Z.eqb_refl, Hbody, Hdelta, Hexpiry, Hnone. msimpl.
  cbn [default truthy]. msimpl.
  eexists. split; [reflexivity |]. msimpl. split; [done |].
  by rewrite <- app_assoc.
Qed.

End TokenLifecycle.

(** ** What a request leaves untouched *)

Section DispatcherFrame.

Variable env : Env.

Lemma grows_refl s : grows s s.
Proof. by repeat split. Qed.

Lemma grows_trans s1 s2 s3 : grows s1 s2 → grows s2 s3 → grows s1 s3.
Proof.
  intros (Hc1 & Hf1 & Hp1 & Hk1 & Hl1) (Hc2 & Hf2 & Hp2 & Hk2 & Hl2).
  repeat split; try congruence; by etrans.
Qed.

Ltac grows_tac :=
  repeat split; try reflexivity; msimpl;
  repeat apply prefix_app_r; reflexivity.

Lemma refresh_access_token_grows s : grows s (refresh_access_token env s).2.
Proof.
  unfold refresh_access_token, _load_refresh_token. msimpl.
  repeat mcase; grows_tac.
Qed.

Lemma get_access_token_grows s : grows s (get_access_token env s).2.
Proof.
  rewrite get_access_token_unfold, ensure_valid_token_unfold.
  destruct (stale env s).
  - set (s0 := if truthy (access_token s) then _ else _).
    assert (Hs0 : grows s s0)
      by (subst s0; destruct (truthy (access_token s)); grows_tac).
    pose proof (refresh_access_token_grows s0) as Hr.
    destruct (refresh_access_token env s0) as [[[|] | e] s1];
      exact (grows_trans _ _ _ Hs0 Hr).
  - destruct (token_expiry s); grows_tac.
Qed.

Lemma get_access_token_token s tok s1 :
  get_access_token env s = (Ret tok, s1) → truthy tok = true →
  tok = access_token s1.
Proof.
  rewrite get_access_token_unfold.
  destruct (_ensure_valid_token env s) as [[[|] | e] s0]; intros [= <- <-];
    [done | discriminate].
Qed.

(** A run of [_make_request] that returns. *)
Lemma make_request_ret_status m e kw s r s' :
  _make_request env m e kw s = (Ret r, s') →
  (400 <=? status_code r) && (status_code r <? 600) = false ∧
  ∃ tok s1 added,
    get_access_token env s = (Ret tok, s1) ∧ truthy tok = true ∧
    calls s1 = calls s ++ added ∧ Forall token_call added ∧
    calls s' = calls s1 ++ [(resource_request s1 tok m e kw, Answer r)].
Proof.
  intros Hrun.
  destruct (make_request_cases env m e kw s _ s' Hrun) as (otok & s1 & Htok & Hcase).
  destruct (get_access_token_new_calls env s _ _ Htok) as (_ & _ & added & Hadded & Htc).
  destruct otok as [tok | exn]; [| destruct Hcase as [Hx _]; discriminate Hx].
  destruct Hcase as (_ & Hcase). destruct (truthy tok) eqn:Htruthy.
  2: { destruct Hcase as [Hx _]. discriminate Hx. }
  revert Hcase. cbn zeta.
  destruct (net env (length (calls s1)) (resource_request s1 tok m e kw))
    as [r0 |]; intros [Hcalls Hrep]; [| destruct Hrep as [Hx _]; discriminate Hx].
  revert Hrep. destruct (_ && _) eqn:Hst; intros [Hx _]; [discriminate Hx |].
  injection Hx as <-. split; [done |]. by exists tok, s1, added.
Qed.

(** X7.  Whatever its outcome, a run of [_make_request] leaves the
    configuration of the client, the files and the count of prompts as they
    were, and only appends to the exchanges and to the log.  When the token
    in memory is still valid it also leaves the two tokens and the expiry as
    they were and sends at most one request. *)
Theorem make_request_frame m e kw s o s' :
  _make_request env m e kw s = (o, s') →
  config s' = config s ∧ fs s' = fs s ∧ prompts s' = prompts s ∧
  calls s `prefix_of` calls s' ∧ log s `prefix_of` log s' ∧
  (stale env s = false →
   access_token s' = access_token s ∧ refresh_token s' = refresh_token s ∧
   token_expiry s' = token_expiry s ∧ (length (new_calls s s') ≤ 1)%nat).
Proof.
  intros Hrun.
  destruct (make_request_cases env m e kw s o s' Hrun) as (otok & s1 & Htok & Hcase).
  pose proof (get_access_token_grows s) as Hg. rewrite Htok in Hg. cbn [snd] in Hg.
  assert (Hstep : grows s1 s' ∧ access_token s' = access_token s1 ∧
                  refresh_token s' = refresh_token s1 ∧
                  token_expiry s' = token_expiry s1 ∧
                  (length (new_calls s1 s') ≤ 1)%nat).
  { destruct otok as [tok | exn].
    - destruct Hcase as ((Hc & Hf & Ha & Hr & He & _ & Hp) & Hcase).
      assert (Hexch : ∃ added lines, calls s' = calls s1 ++ added ∧
                        (length added ≤ 1)%nat ∧ log s' = log s1 ++ lines).
      { destruct (truthy tok).
        - cbn zeta in Hcase. destruct Hcase as (Hcalls & Hrep).
          revert Hcalls Hrep. destruct (net env _ _) as [r |];
            [destruct (_ && _) |]; intros Hcalls [_ Hlog]; eexists [_], _;
            (split; [exact Hcalls |]); (split; [cbn; lia | exact Hlog]).
        - destruct Hcase as (_ & Hcalls & Hlog). exists []. rewrite app_nil_r.
          eexists. split; [exact Hcalls |]. split; [cbn; lia | exact Hlog]. }
      destruct Hexch as (added & lines & Hcalls & Hlen & Hlog).
      rewrite (new_calls_app _ _ _ Hcalls).
      repeat split; try done; [rewrite Hcalls | rewrite Hlog]; by apply prefix_app_r.
    - destruct Hcase as (_ & ->).
      rewrite (new_calls_app s1 s1 []) by (by rewrite app_nil_r).
      repeat split; try done; cbn; lia. }
  destruct Hstep as (Hg1 & Ha & Hr & He & Hn).
  destruct (grows_trans _ _ _ Hg Hg1) as (Hc & Hf & Hp & Hk & Hl).
  do 5 (split; [done |]). intros Hfresh.
  assert (Hs1 : access_token s1 = access_token s ∧
                refresh_token s1 = refresh_token s ∧
                token_expiry s1 = token_expiry s ∧ calls s1 = calls s).
  { revert Htok.
    rewrite get_access_token_unfold, ensure_valid_token_unfold, Hfresh.
    intros [= <- <-]. by destruct (token_expiry s) eqn:E. }
  destruct Hs1 as (Ha1 & Hr1 & He1 & Hc1).
  repeat split; try congruence.
  unfold new_calls in *. by rewrite <- Hc1.
Qed.

End DispatcherFrame.

(** ** Requests and results of the resource methods *)

Section ResourceMethods.

Variable env : Env.

Lemma status_not_error (r : Response) :
  (400 <=? status_code r) && (status_code r <? 600) = false →
  ¬ (400 ≤ status_code r < 600).
Proof.
  intros H [H1 H2]. apply andb_false_iff in H as [H | H].
  - apply Z.leb_gt in H. lia.
  - apply Z.ltb_ge in H. lia.
Qed.

(** The last exchange of a run of [_make_request] that returns. *)
Lemma make_request_ret_last m e kw s r s' :
  _make_request env m e kw s = (Ret r, s') →
  ¬ (400 ≤ status_code r < 600) ∧
  ∃ req, last (calls s') = Some (req, Answer r) ∧
         method req = m ∧ url req = BASE_URL +:+ "/" +:+ e ∧
         json req = kw_json kw ∧
         List.filter is_resource_call (new_calls s s') = [(req, Answer r)].
Proof.
  intros Hrun.
  destruct (make_request_ret_status env m e kw s r s' Hrun)
    as (Hst & tok & s1 & added & _ & _ & Hadded & Htc & Hcalls).
  split; [by apply status_not_error |].
  exists (resource_request s1 tok m e kw).
  split; [by rewrite Hcalls, last_snoc |]. repeat split.
  rewrite (new_calls_app s s' (added ++ [(resource_request s1 tok m e kw, Answer r)]))
    by (by rewrite Hcalls, Hadded, <- app_assoc).
  by apply filter_resource_step.
Qed.

(** The log of a run of [_make_request] that returns. *)
Lemma make_request_ret_log m e kw s r s' :
  _make_request env m e kw s = (Ret r, s') →
  ∃ earlier, log s' = earlier ++
    [(INFO, MsgMaking m (BASE_URL +:+ "/" +:+ e));
     (INFO, MsgRequestOk (BASE_URL +:+ "/" +:+ e))].
Proof.
  intros Hrun.
  destruct (make_request_cases env m e kw s _ s' Hrun) as (otok & s1 & Htok & Hcase).
  destruct otok as [tok | exn]; [| destruct Hcase as [Hx _]; discriminate Hx].
  destruct Hcase as (_ & Hcase). destruct (truthy tok) eqn:Htruthy.
  2: { destruct Hcase as [Hx _]. discriminate Hx. }
  revert Hcase. cbn zeta.
  destruct (net env (length (calls s1)) (resource_request s1 tok m e kw))
    as [r0 |]; intros [Hcalls Hrep]; [| destruct Hrep as [Hx _]; discriminate Hx].
  revert Hrep. destruct (_ && _) eqn:Hst; intros [Hx Hlog]; [discriminate Hx |].
  by exists (log s1).
Qed.

(** X8.  When [_make_request] returns a response, its status is outside
    400..599, the response is the answer to the last request of the run,
    that request has the method, the URL [BASE_URL/endpoint] and the JSON
    body of the call and is the only one sent to the resource API, and the
    last two log records are the announcement of the request and its
    success. *)
Theorem make_request_returns m e kw s r s' :
  _make_request env m e kw s = (Ret r, s') →
  ¬ (400 ≤ status_code r < 600) ∧
  (∃ req, last (calls s') = Some (req, Answer r) ∧
          method req = m ∧ url req = BASE_URL +:+ "/" +:+ e ∧
          json req = kw_json kw ∧
          List.filter is_resource_call (new_calls s s') = [(req, Answer r)]) ∧
  ∃ earlier, log s' = earlier ++
    [(INFO, MsgMaking m (BASE_URL +:+ "/" +:+ e));
     (INFO, MsgRequestOk (BASE_URL +:+ "/" +:+ e))].
Proof.
  intros Hrun.
  destruct (make_request_ret_last m e kw s r s' Hrun) as [Hst Hlast].
  split; [exact Hst |]. split; [exact Hlast |].
  exact (make_request_ret_log m e kw s r s' Hrun).
Qed.

(** X9.  Every request that a run of [_make_request] sends to the resource
    API carries the access token the client holds at the end of the run, in
    the [Authorization] header with the [Zoho-oauthtoken] scheme, and the
    JSON content type; that token is non-empty. *)
Theorem resource_requests_authorized m e kw s o s' :
  _make_request env m e kw s = (o, s') →
  ∀ x, x ∈ new_calls s s' → is_resource_call x = true →
    truthy (access_token s') = true ∧
    headers x.1 !! "Authorization" = Some (OAuthToken (access_token s')) ∧
    headers x.1 !! "Content-Type" = Some (Lit "application/json;charset=UTF-8").
Proof.
  intros Hrun x Hx Hres.
  destruct (make_request_cases env m e kw s o s' Hrun) as (otok & s1 & Htok & Hcase).
  destruct (get_access_token_new_calls env s _ _ Htok) as (_ & _ & added & Hadded & Htc).
  assert (Hold : x ∈ added → False).
  { intros Hin. rewrite Forall_forall in Htc.
    pose proof (token_call_not_resource x (Htc x Hin)). congruence. }
  destruct otok as [tok | exn].
  - destruct Hcase as ((_ & _ & Ha & _) & Hcase).
    destruct (truthy tok) eqn:Htruthy.
    + cbn zeta in Hcase. destruct Hcase as (Hcalls & _).
      rewrite (new_calls_app s s' (added ++ _)) in Hx
        by (rewrite Hcalls, Hadded; by rewrite <- app_assoc).
      apply elem_of_app in Hx as [Hx | Hx]; [by destruct Hold |].
      apply list_elem_of_singleton in Hx as ->.
      rewrite Ha, <- (get_access_token_token env s tok s1 Htok Htruthy).
      split; [done |]. cbn [fst headers resource_request]. unfold resource_headers.
      split; [apply lookup_insert_eq |].
      rewrite lookup_insert_ne by done. apply lookup_insert_eq.
    + destruct Hcase as (_ & Hcalls & _).
      rewrite (new_calls_app s s' added) in Hx by congruence. by destruct Hold.
  - destruct Hcase as (_ & ->).
    rewrite (new_calls_app s s1 added) in Hx by congruence. by destruct Hold.
Qed.

(** X10.  [mark_contact_active] and [mark_contact_inactive] post to
    [contacts/<id>/active] and [contacts/<id>/inactive]; when they return,
    the result is [True] exactly when the status of the answer is 200, so a
    success with another status (204, 302) gives [False], and a 4xx or 5xx
    status never gives a result. *)
Theorem mark_contact_result contact_id s b s' :
  (mark_contact_active env contact_id s = (Ret b, s') →
   ∃ req r, last (calls s') = Some (req, Answer r) ∧
            method req = "POST" ∧
            url req = BASE_URL +:+ "/" +:+ "contacts/" +:+ contact_id +:+ "/active" ∧
            b = (status_code r =? 200) ∧ ¬ (400 ≤ status_code r < 600)) ∧
  (mark_contact_inactive env contact_id s = (Ret b, s') →
   ∃ req r, last (calls s') = Some (req, Answer r) ∧
            method req = "POST" ∧
            url req = BASE_URL +:+ "/" +:+ "contacts/" +:+ contact_id +:+ "/inactive" ∧
            b = (status_code r =? 200) ∧ ¬ (400 ≤ status_code r < 600)).
Proof.
  split; unfold mark_contact_active, mark_contact_inactive; msimpl;
    (destruct (_make_request env "POST" _ no_kwargs s) as [[r | exn] s1] eqn:Hrun;
     [| done]);
    intros [= <- <-];
    destruct (make_request_ret_last _ _ _ _ _ _ Hrun)
      as (Hst & req & Hlast & Hm & Hu & _);
    by exists req, r.
Qed.

(** X11.  The result of [create_item] and of [create_contact], from the
    document of the response: the identifier of the entity; [None] when the
    document has no ["item"] (["contact"]) or the entity has no identifier;
    an [AttributeError] when the entity is not an object. *)
Theorem create_methods_result s r s' d :
  json_body r = Some (PDict d) →
  (∀ name rate description,
     _make_request env "POST" "items"
       (mkKwargs None (Some (item_data name rate description))) s = (Ret r, s') →
     create_item env name rate description s =
       (match d !! "item" with
        | None => Ret PNone
        | Some (PDict item) => Ret (default PNone (item !! "item_id"))
        | Some _ => Raise AttributeError
        end, s')) ∧
  (∀ contact_data,
     _make_request env "POST" "contacts"
       (mkKwargs None (Some (PDict contact_data))) s = (Ret r, s') →
     create_contact env contact_data s =
       (match d !! "contact" with
        | None => Ret PNone
        | Some (PDict contact) => Ret (default PNone (contact !! "contact_id"))
        | Some _ => Raise AttributeError
        end, s')).
Proof.
  intros Hbody. split; intros; unfold create_item, create_contact; msimpl;
    match goal with H : _make_request _ _ _ _ _ = _ |- _ => rewrite H end;
    unfold response_json; rewrite Hbody; cbn [py_get]; msimpl;
    [destruct (d !! "item") as [[| | | | | item] |]
    | destruct (d !! "contact") as [[| | | | | contact] |]];
    cbn [default py_get]; try done; by rewrite lookup_empty.
Qed.

(** X12.  [get_item] and [get_contact] return the entity of the document
    of the response, and an empty dictionary, which is falsy, when the
    document has none. *)
Theorem get_methods_result s r s' d :
  json_body r = Some (PDict d) →
  (∀ item_id,
     _make_request env "GET" ("items/" +:+ item_id) no_kwargs s = (Ret r, s') →
     get_item env item_id s = (Ret (default (PDict ∅) (d !! "item")), s') ∧
     (d !! "item" = None → truthy (default (PDict ∅) (d !! "item")) = false)) ∧
  (∀ contact_id,
     _make_request env "GET" ("contacts/" +:+ contact_id) no_kwargs s = (Ret r, s') →
     get_contact env contact_id s = (Ret (default (PDict ∅) (d !! "contact")), s') ∧
     (d !! "contact" = None → truthy (default (PDict ∅) (d !! "contact")) = false)).
Proof.
  intros Hbody. split; intros ? Hrun; unfold get_item, get_contact; msimpl;
    rewrite Hrun; unfold response_json; rewrite Hbody; cbn [py_get];
    (split; [done |]); by intros ->.
Qed.

End ResourceMethods.

(** ** Invoices: lists of different lengths *)

Section InvoiceLengths.

Variable env : Env.

Lemma fst_zip_take {A B} (l : list A) (k : list B) :
  (zip l k).*1 = take (length k) l.
Proof.
  revert k. induction l as [| a l IH]; intros [| b k]; cbn; try done.
  by rewrite IH.
Qed.

Lemma line_items_for_length (pairs : list (string * Z)) (found : list PyVal) :
  length pairs = length found →
  length (line_items_for (zip pairs found)) = length (List.filter truthy found).
Proof.
  revert found. induction pairs as [| [item_id quantity] pairs IH];
    intros [| item found] Hlen; try done.
  cbn [zip zip_with line_items_for flat_map List.filter].
  injection Hlen as Hlen. specialize (IH found Hlen).
  unfold line_items_for in IH.
  destruct (truthy item); cbn [app length]; by rewrite IH.
Qed.

(** A run of [create_invoice] that returns, whatever the lengths of its
    arguments. *)
Lemma create_invoice_ret customer_id items quantities s v s' :
  create_invoice env customer_id items quantities s = (Ret v, s') →
  ∃ lookups create,
    List.filter is_resource_call (new_calls s s') = lookups ++ [create] ∧
    Forall2 lookup_call (zip items quantities).*1 lookups ∧
    method create.1 = "POST" ∧
    url create.1 = BASE_URL +:+ "/" +:+ "invoices" ∧
    json create.1 =
      Some (invoice_data customer_id
              (line_items_for
                 (zip (zip items quantities)
                      (map (λ x, item_of_reply x.2) lookups)))).
Proof.
  unfold create_invoice. msimpl.
  destruct (create_invoice_loop env (zip items quantities) [] s)
    as [[line_items | exn] s1] eqn:Hloop; [| done].
  destruct (_make_request env "POST" "invoices" _ s1)
    as [[r | exn] s2] eqn:Hrun; [| done].
  intros Hret.
  assert (s' = s2) as ->.
  { revert Hret. unfold response_json. repeat mcase; intros H; by inversion H. }
  clear Hret.
  destruct (create_invoice_loop_ret env _ _ _ _ _ Hloop)
    as (added1 & lookups & Hc1 & Hf1 & Hall & Hout).
  destruct (make_request_ret env _ _ _ _ _ _ Hrun) as (tok & s0 & added2 & Hc2 & Htc).
  eexists lookups, _. split; [| split; [done |]].
  - rewrite (new_calls_app s s2 (added1 ++ added2 ++ [_]))
      by (by rewrite Hc2, Hc1, <- app_assoc).
    rewrite List.filter_app, Hf1. f_equal. by apply filter_resource_step.
  - cbn [fst method url json resource_request kw_json]. by rewrite Hout.
Qed.

(** X13.  [create_invoice] pairs items with quantities up to the shorter
    of the two lists: a run that returns has looked up the first
    [min (len items) (len quantities)] items, in order, and then posted the
    invoice; the items beyond that are dropped without an error. *)
Theorem create_invoice_truncates customer_id items quantities s v s' :
  create_invoice env customer_id items quantities s = (Ret v, s') →
  ∃ lookups create,
    List.filter is_resource_call (new_calls s s') = lookups ++ [create] ∧
    length lookups = (length items `min` length quantities)%nat ∧
    Forall2 lookup_call (take (length quantities) items) lookups ∧
    method create.1 = "POST" ∧
    url create.1 = BASE_URL +:+ "/" +:+ "invoices".
Proof.
  intros Hrun.
  destruct (create_invoice_ret _ _ _ _ _ _ Hrun)
    as (lookups & create & Hcalls & Hall & Hm & Hu & _).
  rewrite fst_zip_take in Hall.
  exists lookups, create. repeat split; try done.
  rewrite <- (Forall2_length _ _ _ Hall), length_take. lia.
Qed.

(** X14.  The invoice that [create_invoice] posts has one line per lookup
    that gave a non-empty entity: never more lines than lookups. *)
Theorem create_invoice_line_item_count customer_id items quantities s v s' :
  create_invoice env customer_id items quantities s = (Ret v, s') →
  ∃ lookups create line_items,
    List.filter is_resource_call (new_calls s s') = lookups ++ [create] ∧
    json create.1 = Some (invoice_data customer_id line_items) ∧
    length line_items =
      length (List.filter truthy (map (λ x, item_of_reply x.2) lookups)) ∧
    (length line_items ≤ length lookups)%nat.
Proof.
  intros Hrun.
  destruct (create_invoice_ret _ _ _ _ _ _ Hrun)
    as (lookups & create & Hcalls & Hall & _ & _ & Hjson).
  eexists lookups, create, _. split; [done |]. split; [exact Hjson |].
  assert (Hlen : length (zip items quantities) =
                 length (map (λ x : Request * Reply, item_of_reply x.2) lookups)).
  { rewrite length_map, <- (Forall2_length _ _ _ Hall). by rewrite length_fmap. }
  rewrite (line_items_for_length _ _ Hlen). split; [done |].
  etrans; [apply List.filter_length_le |]. by rewrite length_map.
Qed.

End InvoiceLengths.

(** ** Invoices: the requests of any run *)

Section InvoiceRequests.

Variable env : Env.

(** The requests one run of [_make_request] sends to the resource API: at
    most one, and one when the run returns. *)
Lemma make_request_any m e kw s o s' :
  _make_request env m e kw s = (o, s') →
  ∃ added sent,
    calls s' = calls s ++ added ∧
    List.filter is_resource_call added = sent ∧
    (length sent ≤ 1)%nat ∧
    Forall (λ x, method x.1 = m ∧ url x.1 = BASE_URL +:+ "/" +:+ e) sent ∧
    (∀ r, o = Ret r → length sent = 1%nat).
Proof.
  intros Hrun.
  destruct (make_request_cases env m e kw s o s' Hrun) as (otok & s1 & Htok & Hcase).
  destruct (get_access_token_new_calls env s _ _ Htok) as (_ & _ & added & Hadded & Htc).
  assert (Hnone : calls s' = calls s1 → (∀ r, o ≠ Ret r) →
    ∃ added sent,
      calls s' = calls s ++ added ∧
      List.filter is_resource_call added = sent ∧
      (length sent ≤ 1)%nat ∧
      Forall (λ x, method x.1 = m ∧ url x.1 = BASE_URL +:+ "/" +:+ e) sent ∧
      (∀ r, o = Ret r → length sent = 1%nat)).
  { intros Hc Ho. exists added, []. split; [congruence |].
    split; [by apply filter_token_calls |]. split; [cbn; lia |].
    split; [constructor |]. intros r Hr. by destruct (Ho r). }
  destruct otok as [tok | exn].
  - destruct Hcase as (_ & Hcase). destruct (truthy tok).
    + cbn zeta in Hcase. destruct Hcase as (Hcalls & _).
      exists (added ++ [(resource_request s1 tok m e kw,
                         net env (length (calls s1)) (resource_request s1 tok m e kw))]),
             [(resource_request s1 tok m e kw,
               net env (length (calls s1)) (resource_request s1 tok m e kw))].
      split; [by rewrite Hcalls, Hadded, <- app_assoc |].
      split; [by apply filter_resource_step |]. split; [done |].
      split; [by repeat constructor | done].
    + destruct Hcase as (-> & Hcalls & _). by apply Hnone.
  - destruct Hcase as (-> & ->). by apply Hnone.
Qed.

Lemma get_item_any item_id s o s' :
  get_item env item_id s = (o, s') →
  ∃ added sent,
    calls s' = calls s ++ added ∧
    List.filter is_resource_call added = sent ∧
    (length sent ≤ 1)%nat ∧
    Forall (λ x, method x.1 = "GET") sent ∧
    (∀ item, o = Ret item → length sent = 1%nat).
Proof.
  unfold get_item. msimpl.
  destruct (_make_request env "GET" ("items/" +:+ item_id) no_kwargs s)
    as [o1 s1] eqn:Hrun.
  destruct (make_request_any _ _ _ _ _ _ Hrun)
    as (added & sent & Hc & Hf & Hlen & Hall & Hret).
  intros Hget. assert (s' = s1) as ->.
  { revert Hget. unfold response_json. repeat mcase; intros H; by inversion H. }
  exists added, sent. repeat split; try done.
  - eapply Forall_impl; [exact Hall |]. by intros x [Hm _].
  - intros item ->. destruct o1 as [r | exn]; [by eapply Hret | done].
Qed.

Lemma create_invoice_loop_any pairs acc s o s' :
  create_invoice_loop env pairs acc s = (o, s') →
  ∃ added lookups,
    calls s' = calls s ++ added ∧
    List.filter is_resource_call added = lookups ∧
    (length lookups ≤ length pairs)%nat ∧
    Forall (λ x, method x.1 = "GET") lookups ∧
    (∀ out, o = Ret out → length lookups = length pairs).
Proof.
  revert acc s. induction pairs as [| [item_id quantity] rest IH]; intros acc s.
  - cbn [create_invoice_loop]. intros [= <- <-].
    exists [], []. rewrite app_nil_r. by repeat split.
  - cbn [create_invoice_loop]. msimpl.
    destruct (get_item env item_id s) as [o1 s1] eqn:Hitem.
    destruct (get_item_any _ _ _ _ Hitem)
      as (added1 & sent & Hc1 & Hf1 & Hlen1 & Hall1 & Hret1).
    assert (Hstop : ∀ e, o = Raise e → s' = s1 →
      ∃ added lookups,
        calls s' = calls s ++ added ∧
        List.filter is_resource_call added = lookups ∧
        (length lookups ≤ length ((item_id, quantity) :: rest))%nat ∧
        Forall (λ x, method x.1 = "GET") lookups ∧
        (∀ out, o = Ret out → length lookups = length ((item_id, quantity) :: rest))).
    { intros e -> ->. exists added1, sent. repeat split; try done. cbn. lia. }
    assert (Hnext : ∀ acc1, create_invoice_loop env rest acc1 s1 = (o, s') →
      (∃ item, o1 = Ret item) →
      ∃ added lookups,
        calls s' = calls s ++ added ∧
        List.filter is_resource_call added = lookups ∧
        (length lookups ≤ length ((item_id, quantity) :: rest))%nat ∧
        Forall (λ x, method x.1 = "GET") lookups ∧
        (∀ out, o = Ret out → length lookups = length ((item_id, quantity) :: rest))).
    { intros acc1 Hloop [item Hitem1].
      destruct (IH _ _ Hloop) as (added2 & lookups2 & Hc2 & Hf2 & Hlen2 & Hall2 & Hret2).
      specialize (Hret1 item Hitem1).
      exists (added1 ++ added2), (sent ++ lookups2).
      split; [by rewrite Hc2, Hc1, <- app_assoc |].
      split; [by rewrite List.filter_app, Hf1, Hf2 |].
      rewrite length_app. cbn [length].
      split; [lia |]. split; [by apply Forall_app |].
      intros out Hout. rewrite (Hret2 out Hout). lia. }
    destruct o1 as [item | exn]; [| intros [= <- <-]; by eapply Hstop].
    destruct (truthy item); [| intros Hloop; apply (Hnext _ Hloop); eauto].
    destruct item; cbn [py_get]; msimpl;
      try (intros [= <- <-]; by eapply Hstop).
    intros Hloop. apply (Hnext _ Hloop); eauto.
Qed.

(** X15.  Whatever its outcome, a run of [create_invoice] sends to the
    resource API a sequence of GET requests, at most one per pair, followed
    by at most one POST to [invoices]; the POST is sent only after every
    pair has been looked up, and a run that returns has sent it. *)
Theorem create_invoice_requests customer_id items quantities s o s' :
  create_invoice env customer_id items quantities s = (o, s') →
  ∃ lookups posts,
    List.filter is_resource_call (new_calls s s') = lookups ++ posts ∧
    Forall (λ x, method x.1 = "GET") lookups ∧
    (length lookups ≤ length (zip items quantities))%nat ∧
    (posts = [] ∨
     ∃ create, posts = [create] ∧ method create.1 = "POST" ∧
               url create.1 = BASE_URL +:+ "/" +:+ "invoices" ∧
               length lookups = length (zip items quantities)) ∧
    (∀ v, o = Ret v → length posts = 1%nat).
Proof.
  unfold create_invoice. msimpl.
  destruct (create_invoice_loop env (zip items quantities) [] s)
    as [o1 s1] eqn:Hloop.
  destruct (create_invoice_loop_any _ _ _ _ _ Hloop)
    as (added1 & lookups & Hc1 & Hf1 & Hlen1 & Hall1 & Hret1).
  destruct o1 as [line_items | exn].
  - destruct (_make_request env "POST" "invoices" _ s1) as [o2 s2] eqn:Hrun.
    destruct (make_request_any _ _ _ _ _ _ Hrun)
      as (added2 & sent & Hc2 & Hf2 & Hlen2 & Hall2 & Hret2).
    intros Hfin. assert (s' = s2) as ->.
    { revert Hfin. unfold response_json. repeat mcase; intros H; by inversion H. }
    exists lookups, sent.
    split; [rewrite (new_calls_app s s2 (added1 ++ added2))
              by (by rewrite Hc2, Hc1, <- app_assoc);
            by rewrite List.filter_app, Hf1, Hf2 |].
    split; [done |]. split; [done |]. split.
    + destruct sent as [| create [| ? ?]]; [by left | | cbn in Hlen2; lia].
      right. exists create. apply Forall_cons in Hall2 as [[Hm Hu] _].
      repeat split; try done. by apply (Hret1 line_items).
    + intros v ->. destruct o2 as [r | exn]; [by eapply Hret2 | done].
  - intros [= <- <-]. exists lookups, [].
    rewrite app_nil_r, (new_calls_app _ _ _ Hc1).
    repeat split; try done. by left.
Qed.

End InvoiceRequests.

(** ** Construction from a stored token *)

Section Construction.

Variable env : Env.

(** X16.  When the token file holds a non-empty refresh token, the
    constructor does not prompt the operator: it loads the token, sends one
    refresh request built from it, and leaves the files as they were.  When
    that refresh is refused the constructor still returns, with a client
    that has no access token. *)
Theorem init_with_stored_token cid csecret ruri org s0 d token :
  fs s0 !! "zoho_refresh_token.json" = Some (PDict d) →
  d !! "refresh_token" = Some token → truthy token = true →
  ∃ o s' req,
    __init__ env cid csecret ruri org s0 = (o, s') ∧
    req = refresh_request (set_refresh_token token (init_state cid csecret ruri org s0)) ∧
    prompts s' = prompts s0 ∧ fs s' = fs s0 ∧
    calls s' = calls s0 ++ [(req, net env (length (calls s0)) req)] ∧
    (∀ r, net env (length (calls s0)) req = Answer r → status_code r ≠ 200 →
       o = Ret tt ∧ access_token s' = PNone).
Proof.
  intros Hfile Htoken Htruthy.
  set (s1 := set_refresh_token token (init_state cid csecret ruri org s0)).
  assert (Hinit : __init__ env cid csecret ruri org s0 =
                  let (o, s') := refresh_access_token env s1 in
                  (match o with Ret _ => Ret tt | Raise e => Raise e end, s')).
  { unfold __init__, _load_refresh_token, _ensure_auth, _ensure_valid_token.
    msimpl. cbn [init_state fs temp_file]. rewrite Hfile. cbn [py_get]. msimpl.
    rewrite Htoken. cbn [default from_option id]. rewrite Htruthy. msimpl.
    cbn [init_state access_token truthy]. msimpl.
    fold s1. by destruct (refresh_access_token env s1) as [[b | e] s']. }
  rewrite Hinit.
  assert (Hshape : ∀ o s',
    prompts s' = prompts s0 → fs s' = fs s0 →
    calls s' = calls s0 ++
      [(refresh_request s1, net env (length (calls s0)) (refresh_request s1))] →
    (∀ r, net env (length (calls s0)) (refresh_request s1) = Answer r →
       status_code r ≠ 200 → o = Ret tt ∧ access_token s' = PNone) →
    ∃ o1 s2 req,
      (o, s') = (o1, s2) ∧ req = refresh_request s1 ∧
      prompts s2 = prompts s0 ∧ fs s2 = fs s0 ∧
      calls s2 = calls s0 ++ [(req, net env (length (calls s0)) req)] ∧
      (∀ r, net env (length (calls s0)) req = Answer r → status_code r ≠ 200 →
         o1 = Ret tt ∧ access_token s2 = PNone)).
  { intros o s' Hp Hf Hc Hr. by exists o, s', (refresh_request s1). }
  destruct (net env (length (calls s0)) (refresh_request s1)) as [r |] eqn:Hnet.
  - rewrite (refresh_access_token_answered env s1 r Htruthy Hnet). cbn zeta.
    destruct (status_code r =? 200) eqn:Hst.
    + apply Z.eqb_eq in Hst.
      destruct (json_body r) as [[| | | | | body] |];
        [| | | | | destruct (timedelta _); [destruct (datetime_add _ _) |] |];
        apply Hshape; try reflexivity; intros r0 [= <-]; done.
    + apply Hshape; try reflexivity. by intros r0 [= <-].
  - rewrite (refresh_access_token_unanswered env s1 Htruthy Hnet).
    apply Hshape; try reflexivity. by intros r0.
Qed.

(** X17.  Whatever the constructor does on the way (prompt, exchange,
    refresh, error), the client it leaves has the four arguments as its
    configuration and [zoho_refresh_token.json] as its token file. *)
Theorem init_config cid csecret ruri org s0 :
  config (__init__ env cid csecret ruri org s0).2 =
  (cid, csecret, ruri, org, "zoho_refresh_token.json").
Proof.
  unfold __init__, _ensure_auth. msimpl.
  destruct (_load_refresh_token (init_state cid csecret ruri org s0))
    as [o1 s1] eqn:Hload.
  destruct (load_refresh_token_frame _ _ _ Hload) as (Hc1 & _).
  destruct o1 as [[] | e]; [| done]. msimpl.
  assert (Hvalid : ∀ s2, config s2 = config s1 →
            config (let (o, s') := _ensure_valid_token env s2 in
                    match o with
                    | Ret _ => (Ret tt, s')
                    | Raise e => (@Raise unit e, s')
                    end).2
            = (cid, csecret, ruri, org, "zoho_refresh_token.json")).
  { intros s2 Hc2. pose proof (ensure_valid_token_step env s2) as (Hc3 & _).
    destruct (_ensure_valid_token env s2) as [[b | e] s3]; cbn [snd] in *;
      by rewrite Hc3, Hc2, Hc1. }
  destruct (truthy (refresh_token s1)); msimpl; [by apply Hvalid |].
  destruct (get_grant_token env _ _) as [o2 s2] eqn:Hgrant.
  destruct (get_grant_token_outcome env _ _ _ _ Hgrant) as (Hc2 & _).
  destruct o2 as [[|] | e]; msimpl;
    [apply Hvalid | |]; (etrans; [exact Hc2 | exact Hc1]) || exact Hc2.
Qed.

(** X18.  When the token file holds a JSON document that is not an object,
    the constructor raises an [AttributeError] from the load, before any
    prompt or request. *)
Theorem init_with_malformed_file cid csecret ruri org s0 v :
  fs s0 !! "zoho_refresh_token.json" = Some v → (∀ d, v ≠ PDict d) →
  __init__ env cid csecret ruri org s0 =
  (Raise AttributeError, init_state cid csecret ruri org s0).
Proof.
  intros Hfile Hv.
  unfold __init__, _load_refresh_token. msimpl.
  cbn [init_state fs temp_file]. rewrite Hfile.
  destruct v; cbn [py_get]; msimpl; try done. by destruct (Hv d).
Qed.

End Construction.

(** ** The further properties on the scenarios *)

Lemma get_grant_token_without_refresh_token_witness :
  ∃ s', get_grant_token env_error_body "code-1" client_token_on_disk = (Ret true, s') ∧
        refresh_token s' = PNone ∧
        fs s' !! "zoho_refresh_token.json" = Some (PDict {["refresh_token" := PNone]}) ∧
        (refresh_access_token env_tokens_only s').1 = Ret false.
Proof.
  destruct (get_grant_token_without_refresh_token env_error_body "code-1"
              client_token_on_disk _ _ _ _ eq_refl eq_refl eq_refl eq_refl
              eq_refl eq_refl)
    as (s' & Hrun & Htoken & Hfile & Hrefresh).
  exists s'. split; [exact Hrun |]. split; [exact Htoken |].
  assert (Hname : temp_file s' = "zoho_refresh_token.json")
    by (injection Hrun as <-; reflexivity).
  rewrite Hname in Hfile. split; [exact Hfile |].
  destruct (Hrefresh env_tokens_only) as (s'' & -> & _). reflexivity.
Defined.

Lemma token_lifetime_witness :
  (∃ s', get_grant_token env_error_body "code-1" demo_client = (Ret true, s') ∧
         token_expiry s' = Some (1000 + 3600 * 1000000)) ∧
  (∃ s', refresh_access_token env_tokens_only client_with_refresh_token = (Ret true, s') ∧
         token_expiry s' = Some (1000 + 3600 * 1000000)).
Proof.
  split.
  - destruct (proj1 (token_lifetime env_error_body "code-1" demo_client
                       (mkResponse 200 "" (Some error_body)) _ 3600
                       eq_refl eq_refl eq_refl ltac:(vm_compute; split; discriminate)
                       ltac:(vm_compute; split; [discriminate | reflexivity]))
                eq_refl) as (s' & Hrun & Hexp & _).
    exists s'. split; [exact Hrun | exact Hexp].
  - destruct (proj2 (token_lifetime env_tokens_only "code-1" client_with_refresh_token
                       (mkResponse 200 "" (Some (token_body "access-2" "refresh-2"))) _ 3600
                       eq_refl eq_refl eq_refl ltac:(vm_compute; split; discriminate)
                       ltac:(vm_compute; split; [discriminate | reflexivity]))
                eq_refl eq_refl) as (s' & Hrun & Hexp & _).
    exists s'. split; [exact Hrun | exact Hexp].
Defined.

Lemma get_grant_token_bad_lifetime_witness :
  ∃ s', get_grant_token env_string_lifetime "code-1" demo_client = (Raise TypeError, s') ∧
        access_token s' = PStr "access-3" ∧ refresh_token s' = PStr "refresh-3" ∧
        token_expiry s' = None ∧ fs s' = ∅.
Proof.
  destruct (get_grant_token_bad_lifetime env_string_lifetime "code-1" demo_client
              _ _ TypeError eq_refl eq_refl eq_refl eq_refl)
    as (s' & Hrun & Ha & Hr & He & Hf).
  exists s'. split; [exact Hrun |]. split; [exact Ha |]. split; [exact Hr |].
  split; [exact He | exact Hf].
Defined.

Lemma refresh_then_cached_witness :
  ∃ s1 s2, refresh_access_token env_tokens_only client_with_refresh_token = (Ret true, s1) ∧
           get_access_token env_tokens_only s1 = (Ret (PStr "access-2"), s2) ∧
           calls s2 = calls s1.
Proof.
  assert (∃ s1, refresh_access_token env_tokens_only client_with_refresh_token
                = (Ret true, s1) ∧ access_token s1 = PStr "access-2" ∧
                token_expiry s1 = Some 3600001000 ∧ ticks s1 = 1%nat)
    as (s1 & Hrun & Ha & He & Ht)
    by (eexists; split; [vm_compute; reflexivity | repeat split]).
  destruct (refresh_then_cached env_tokens_only _ s1 Hrun) as (expiry & Hexp & Hcached).
  rewrite He in Hexp. injection Hexp as <-.
  destruct Hcached as (s2 & Hget & Hcalls).
  - by rewrite Ha.
  - rewrite Ht. vm_compute. reflexivity.
  - exists s1, s2. rewrite Ha in Hget. done.
Defined.

Lemma make_request_after_empty_refresh_witness :
  ∃ s', _make_request env_error_body "GET" "invoices" no_kwargs client_with_refresh_token
        = (Raise (ValueError "Failed to obtain a valid access token."), s') ∧
        log s' = [(INFO, MsgRefreshOk); (ERROR, MsgNoValidToken)].
Proof.
  destruct (make_request_after_empty_refresh env_error_body "GET" "invoices" no_kwargs
              client_with_refresh_token _ _ _ _ eq_refl eq_refl eq_refl eq_refl
              eq_refl eq_refl eq_refl eq_refl)
    as (s' & Hrun & _ & Hlog).
  exists s'. split; [exact Hrun | exact Hlog].
Defined.

Lemma make_request_frame_witness :
  ∃ o s', _make_request (env_api (Answer (mkResponse 500 "oops" None)))
            "GET" "invoices" no_kwargs client_fresh = (o, s') ∧
          fs s' = fs client_fresh ∧
          access_token s' = PStr "access-1" ∧
          token_expiry s' = Some 10000.
Proof.
  assert (∃ o s', _make_request (env_api (Answer (mkResponse 500 "oops" None)))
                    "GET" "invoices" no_kwargs client_fresh = (o, s'))
    as (o & s' & Hrun) by (do 2 eexists; vm_compute; reflexivity).
  destruct (make_request_frame _ _ _ _ _ _ _ Hrun) as (_ & Hfs & _ & _ & _ & Hfresh).
  destruct (Hfresh eq_refl) as (Ha & _ & He & _).
  exists o, s'. split; [exact Hrun |]. split; [exact Hfs |].
  split; [exact Ha | exact He].
Defined.

Lemma make_request_returns_witness :
  ∃ r s' req, _make_request (env_api (Answer (mkResponse 204 "" None)))
                "POST" "contacts/7/active" no_kwargs client_fresh = (Ret r, s') ∧
              last (calls s') = Some (req, Answer r) ∧ method req = "POST" ∧
              ¬ (400 ≤ status_code r < 600).
Proof.
  assert (∃ r s', _make_request (env_api (Answer (mkResponse 204 "" None)))
                    "POST" "contacts/7/active" no_kwargs client_fresh = (Ret r, s'))
    as (r & s' & Hrun) by (do 2 eexists; vm_compute; reflexivity).
  destruct (make_request_returns _ _ _ _ _ _ _ Hrun)
    as (Hst & (req & Hlast & Hm & _) & _).
  exists r, s', req. split; [exact Hrun |]. split; [exact Hlast |].
  split; [exact Hm | exact Hst].
Defined.

Lemma resource_requests_authorized_witness :
  ∃ o s' x, _make_request env_tokens_only "GET" "invoices" no_kwargs client_expired = (o, s') ∧
            last (calls s') = Some x ∧
            access_token s' = PStr "access-2" ∧
            headers x.1 !! "Authorization" = Some (OAuthToken (access_token s')).
Proof.
  assert (∃ o s' y x,
            _make_request env_tokens_only "GET" "invoices" no_kwargs client_expired = (o, s') ∧
            calls s' = [y; x] ∧
            new_calls client_expired s' = [y; x] ∧
            is_resource_call x = true ∧
            access_token s' = PStr "access-2")
    as (o & s' & y & x & Hrun & Hcalls & Hnew & Hres & Ha)
    by (do 4 eexists; repeat split; vm_compute; reflexivity).
  exists o, s', x. split; [exact Hrun |].
  split; [rewrite Hcalls; reflexivity |]. split; [exact Ha |].
  refine (proj1 (proj2 (resource_requests_authorized _ _ _ _ _ _ _ Hrun x _ Hres))).
  rewrite Hnew. apply elem_of_cons. right. apply list_elem_of_singleton. reflexivity.
Defined.

Lemma mark_contact_result_witness :
  ∃ s' req r, mark_contact_active (env_api (Answer (mkResponse 204 "" None)))
                "7" client_fresh = (Ret false, s') ∧
              last (calls s') = Some (req, Answer r) ∧ status_code r = 204.
Proof.
  assert (∃ s', mark_contact_active (env_api (Answer (mkResponse 204 "" None)))
                  "7" client_fresh = (Ret false, s'))
    as (s' & Hrun) by (eexists; vm_compute; reflexivity).
  destruct (proj1 (mark_contact_result _ "7" client_fresh false s') Hrun)
    as (req & r & Hlast & _ & _ & Hb & Hst).
  exists s', req, r. split; [exact Hrun |]. split; [exact Hlast |].
  assert (Hr : (req, Answer r) = (req, Answer (mkResponse 204 "" None))).
  { assert (Hl : last (calls s') = Some (req, Answer r)) by exact Hlast.
    injection Hrun as <-. vm_compute in Hl. injection Hl as <- <-. reflexivity. }
  by injection Hr as ->.
Defined.

Lemma create_methods_result_witness :
  (create_item (env_api (ok_json (PDict {["item" := PNone]})))
     "Widget" (PInt 5) "" client_fresh).1 = Raise AttributeError ∧
  (create_item (env_api (ok_json (PDict {["item" := PDict {["item_id" := PStr "it-1"]}]})))
     "Widget" (PInt 5) "" client_fresh).1 = Ret (PStr "it-1").
Proof.
  split.
  - destruct (create_methods_result (env_api (ok_json (PDict {["item" := PNone]})))
                client_fresh (mkResponse 200 "" (Some (PDict {["item" := PNone]})))
                (_make_request (env_api (ok_json (PDict {["item" := PNone]})))
                   "POST" "items"
                   (mkKwargs None (Some (item_data "Widget" (PInt 5) ""))) client_fresh).2
                _ eq_refl) as [Hitem _].
    rewrite (Hitem "Widget" (PInt 5) "" ltac:(vm_compute; reflexivity)). reflexivity.
  - destruct (create_methods_result
                (env_api (ok_json (PDict {["item" := PDict {["item_id" := PStr "it-1"]}]})))
                client_fresh
                (mkResponse 200 ""
                   (Some (PDict {["item" := PDict {["item_id" := PStr "it-1"]}]})))
                (_make_request
                   (env_api (ok_json (PDict {["item" := PDict {["item_id" := PStr "it-1"]}]})))
                   "POST" "items"
                   (mkKwargs None (Some (item_data "Widget" (PInt 5) ""))) client_fresh).2
                _ eq_refl) as [Hitem _].
    rewrite (Hitem "Widget" (PInt 5) "" ltac:(vm_compute; reflexivity)). reflexivity.
Defined.

Lemma get_methods_result_witness :
  (get_item env_catalogue "widget" client_fresh).1 = Ret widget ∧
  (get_contact env_catalogue "7" client_fresh).1 = Ret (PDict ∅).
Proof.
  split.
  - destruct (get_methods_result env_catalogue client_fresh
                (mkResponse 200 "" (Some (PDict {["item" := widget]})))
                (_make_request env_catalogue "GET" "items/widget" no_kwargs client_fresh).2
                _ eq_refl) as [Hitem _].
    destruct (Hitem "widget" ltac:(vm_compute; reflexivity)) as [-> _]. reflexivity.
  - destruct (get_methods_result env_catalogue client_fresh
                (mkResponse 200 "" (Some (PDict ∅)))
                (_make_request env_catalogue "GET" "contacts/7" no_kwargs client_fresh).2
                _ eq_refl) as [_ Hcontact].
    destruct (Hcontact "7" ltac:(vm_compute; reflexivity)) as [-> _]. reflexivity.
Defined.

Lemma create_invoice_truncates_witness :
  ∃ v s' lookups create,
    create_invoice env_catalogue "customer-9" ["widget"; "ghost"; "extra"] [2; 1]
      client_fresh = (Ret v, s') ∧
    List.filter is_resource_call (new_calls client_fresh s') = lookups ++ [create] ∧
    length lookups = 2%nat.
Proof.
  assert (∃ v s',
    create_invoice env_catalogue "customer-9" ["widget"; "ghost"; "extra"] [2; 1]
      client_fresh = (Ret v, s')) as (v & s' & Hrun)
    by (do 2 eexists; vm_compute; reflexivity).
  destruct (create_invoice_truncates _ _ _ _ _ _ _ Hrun)
    as (lookups & create & Hcalls & Hlen & _).
  exists v, s', lookups, create. split; [exact Hrun |]. split; [exact Hcalls | exact Hlen].
Defined.

Lemma create_invoice_line_item_count_witness :
  ∃ v s' lookups create line_items,
    create_invoice env_catalogue "customer-9" ["ghost"; "phantom"] [2; 1]
      client_fresh = (Ret v, s') ∧
    List.filter is_resource_call (new_calls client_fresh s') = lookups ++ [create] ∧
    json create.1 = Some (invoice_data "customer-9" line_items) ∧
    (length line_items ≤ length lookups)%nat.
Proof.
  assert (∃ v s',
    create_invoice env_catalogue "customer-9" ["ghost"; "phantom"] [2; 1]
      client_fresh = (Ret v, s')) as (v & s' & Hrun)
    by (do 2 eexists; vm_compute; reflexivity).
  destruct (create_invoice_line_item_count _ _ _ _ _ _ _ Hrun)
    as (lookups & create & line_items & Hcalls & Hjson & _ & Hle).
  exists v, s', lookups, create, line_items.
  split; [exact Hrun |]. split; [exact Hcalls |]. split; [exact Hjson | exact Hle].
Defined.

Lemma create_invoice_requests_witness :
  ∃ s' lookups,
    create_invoice (env_api (Answer (mkResponse 404 "no such item" None)))
      "customer-9" ["widget"; "ghost"] [2; 1] client_fresh = (Raise (HTTPError 404), s') ∧
    List.filter is_resource_call (new_calls client_fresh s') = lookups ∧
    Forall (λ x, method x.1 = "GET") lookups.
Proof.
  assert (∃ s',
    create_invoice (env_api (Answer (mkResponse 404 "no such item" None)))
      "customer-9" ["widget"; "ghost"] [2; 1] client_fresh = (Raise (HTTPError 404), s'))
    as (s' & Hrun) by (eexists; vm_compute; reflexivity).
  destruct (create_invoice_requests _ _ _ _ _ _ _ Hrun)
    as (lookups & posts & Hcalls & Hget & _ & Hposts & Hret).
  destruct Hposts as [-> | (create & -> & Hm & _ & Hall)].
  - exists s', lookups. rewrite app_nil_r in Hcalls. done.
  - exfalso. assert (Hl : length (List.filter is_resource_call (new_calls client_fresh s'))
                          = 3%nat).
    { rewrite Hcalls, length_app, Hall. reflexivity. }
    injection Hrun as <-. vm_compute in Hl. discriminate Hl.
Defined.

Lemma init_with_stored_token_witness :
  ∃ s', __init__ env_denied "client-1" "secret-1" "https://app.example/callback"
          "org-77" client_token_on_disk = (Ret tt, s') ∧
        prompts s' = 0%nat ∧ access_token s' = PNone.
Proof.
  destruct (init_with_stored_token env_denied "client-1" "secret-1"
              "https://app.example/callback" "org-77" client_token_on_disk
              _ (PStr "disk-1") eq_refl eq_refl eq_refl)
    as (o & s' & req & Hrun & -> & Hp & _ & _ & Hfail).
  destruct (Hfail _ eq_refl ltac:(discriminate)) as [-> Ha].
  exists s'. split; [exact Hrun |]. split; [exact Hp | exact Ha].
Defined.

Lemma init_with_malformed_file_witness :
  (__init__ env_tokens_only "client-1" "secret-1" "https://app.example/callback"
     "org-77" client_malformed_file).1 = Raise AttributeError.
Proof.
  rewrite (init_with_malformed_file env_tokens_only "client-1" "secret-1"
             "https://app.example/callback" "org-77" client_malformed_file
             (PList []) eq_refl ltac:(discriminate)).
  reflexivity.
Defined.
